(** * A shallow embedding of the Python adapters of ona-clojure
    (src/misc/python: NAR.py, NAR_native_threaded.py, NAR_working.py).

    Strings are modelled as Stdlib [string] (ASCII characters); Python
    exceptions are the constructors of [pyexc] and fallible code runs in the
    small error monad [exc]. *)

From Stdlib Require Import String Ascii ZArith List Bool Lia.
From Stdlib Require Import Numbers.DecimalString Numbers.DecimalN.
Import ListNotations.
Local Open Scope string_scope.

(* ------------------------------------------------------------------ *)
(** ** Python exceptions *)

Inductive pyexc :=
| IndexError
| ValueError
| JSONDecodeError
| RecursionError
| KeyError
| TypeError
| AttributeError
| BrokenPipeError
| TimeoutExpired.

Inductive exc (A : Type) : Type :=
| Ok (a : A)
| Raise (e : pyexc).
Arguments Ok {A} a.
Arguments Raise {A} e.

Definition exc_bind {A B} (m : exc A) (k : A -> exc B) : exc B :=
  match m with
  | Ok a => k a
  | Raise e => Raise e
  end.

Notation "x <- m ;; k" := (exc_bind m (fun x => k))
  (at level 61, m at next level, right associativity).

(** [l[i]] on a Python list. *)
Definition nth_exc {A} (i : nat) (l : list A) : exc A :=
  match nth_error l i with
  | Some a => Ok a
  | None => Raise IndexError
  end.

(* ------------------------------------------------------------------ *)
(** ** Python string methods *)

(** [str.isspace] on one ASCII character: \t \n \x0b \x0c \r, \x1c-\x1f
    and the space. *)
Definition is_space (c : ascii) : bool :=
  let n := nat_of_ascii c in
  ((9 <=? n)%nat && (n <=? 13)%nat) || ((28 <=? n)%nat && (n <=? 32)%nat).

Fixpoint lstrip (s : string) : string :=
  match s with
  | EmptyString => EmptyString
  | String c s' => if is_space c then lstrip s' else s
  end.

Fixpoint rstrip (s : string) : string :=
  match s with
  | EmptyString => EmptyString
  | String c s' =>
      let r := rstrip s' in
      if (r =? "") && is_space c then "" else String c r
  end.

(** [s.strip()] *)
Definition strip (s : string) : string := rstrip (lstrip s).

(** [s.startswith(p)] *)
Fixpoint startswith (p s : string) : bool :=
  match p, s with
  | EmptyString, _ => true
  | String c p', String c' s' => (c =? c')%char && startswith p' s'
  | String _ _, EmptyString => false
  end.

(** Index of the first occurrence of [sep] in [s] ([s.find(sep)]). *)
Fixpoint find_sub (sep s : string) : option nat :=
  if startswith sep s then Some 0
  else match s with
       | EmptyString => None
       | String _ s' => option_map S (find_sub sep s')
       end.

(** [sep in s] *)
Definition contains (sep s : string) : bool :=
  match find_sub sep s with Some _ => true | None => false end.

Fixpoint take (n : nat) (s : string) : string :=
  match n, s with
  | O, _ => EmptyString
  | S n', String c s' => String c (take n' s')
  | S _, EmptyString => EmptyString
  end.

Fixpoint drop (n : nat) (s : string) : string :=
  match n, s with
  | O, _ => s
  | S n', String _ s' => drop n' s'
  | S _, EmptyString => EmptyString
  end.

(** [s.split(sep)] for a non-empty [sep]: every piece between successive
    occurrences, left to right.  Each round consumes at least one
    character, so the fuel [length s + 1] is never exhausted. *)
Fixpoint split_fuel (fuel : nat) (sep s : string) : list string :=
  match fuel with
  | O => [s]
  | S f =>
      match find_sub sep s with
      | None => [s]
      | Some i => take i s :: split_fuel f sep (drop (i + String.length sep) s)
      end
  end.

Definition py_split (sep s : string) : list string :=
  split_fuel (S (String.length s)) sep s.

(** [s.split(sep, 1)] *)
Definition py_split1 (sep s : string) : list string :=
  match find_sub sep s with
  | None => [s]
  | Some i => [take i s; drop (i + String.length sep) s]
  end.

(** [s.split()]: runs of whitespace separate the pieces, empty pieces are
    dropped. *)
Fixpoint split_ws_aux (s cur : string) : list string :=
  match s with
  | EmptyString => if cur =? "" then [] else [cur]
  | String c s' =>
      if is_space c then
        (if cur =? "" then split_ws_aux s' "" else cur :: split_ws_aux s' "")
      else split_ws_aux s' (cur ++ String c "")
  end.

Definition split_ws (s : string) : list string := split_ws_aux s "".

(** [s.replace(' ', '_')] *)
Fixpoint replace_space (s : string) : string :=
  match s with
  | EmptyString => EmptyString
  | String c s' =>
      String (if (c =? " ")%char then "_"%char else c) (replace_space s')
  end.

Definition lower_char (c : ascii) : ascii :=
  let n := nat_of_ascii c in
  if (65 <=? n)%nat && (n <=? 90)%nat then ascii_of_nat (n + 32) else c.

(** [s.lower()] *)
Fixpoint lower (s : string) : string :=
  match s with
  | EmptyString => EmptyString
  | String c s' => String (lower_char c) (lower s')
  end.

(** ["\n".join(lines)] *)
Fixpoint join (sep : string) (l : list string) : string :=
  match l with
  | [] => ""
  | [x] => x
  | x :: l' => x ++ sep ++ join sep l'
  end.

(* ------------------------------------------------------------------ *)
(** ** Python numbers: [int(s)], [float(s)] and [repr] of a float *)

Definition digit_of (c : ascii) : option N :=
  let n := nat_of_ascii c in
  if (48 <=? n)%nat && (n <=? 57)%nat then Some (N.of_nat (n - 48)) else None.

(** Python's [digitpart ::= digit (["_"] digit)*], read greedily; [after]
    tells whether a digit was just read (an underscore may follow one). *)
Fixpoint digit_run (after : bool) (cs : list ascii) : list N * list ascii :=
  match cs with
  | [] => ([], [])
  | c :: cs' =>
      match digit_of c with
      | Some d => let '(ds, r) := digit_run true cs' in (d :: ds, r)
      | None =>
          if after && (c =? "_")%char then
            match cs' with
            | c2 :: cs'' =>
                match digit_of c2 with
                | Some d => let '(ds, r) := digit_run true cs'' in (d :: ds, r)
                | None => ([], cs)
                end
            | [] => ([], cs)
            end
          else ([], cs)
      end
  end.

Definition digits_value (ds : list N) : N :=
  fold_left (fun acc d => (acc * 10 + d)%N) ds 0%N.

(** An optional sign. *)
Definition read_sign (cs : list ascii) : bool * list ascii :=
  match cs with
  | c :: r => if (c =? "-")%char then (true, r)
              else if (c =? "+")%char then (false, r) else (false, cs)
  | [] => (false, [])
  end.

(** [int(s)] for a [str] argument; [None] is the [ValueError]. *)
Definition py_int (s : string) : option Z :=
  let '(neg, cs) := read_sign (list_ascii_of_string (strip s)) in
  match digit_run false cs with
  | ([], _) => None
  | (ds, []) => let v := Z.of_N (digits_value ds) in
                Some (if neg then (- v)%Z else v)
  | (_, _ :: _) => None
  end.

(** A Python float, kept as the exact decimal value of the literal it was
    read from: [(-1)^neg * mant * 10^exp10] with no trailing zero in
    [mant] (binary rounding of the double is not modelled). *)
Inductive pyfloat :=
| FFinite (neg : bool) (mant : N) (exp10 : Z)
| FInf (neg : bool)
| FNaN.

Fixpoint strip_zeros (fuel : nat) (m : N) (e : Z) : N * Z :=
  match fuel with
  | O => (m, e)
  | S f =>
      if (m =? 0)%N then (0%N, 0%Z)
      else if (N.modulo m 10 =? 0)%N then strip_zeros f (m / 10)%N (e + 1)%Z
      else (m, e)
  end.

Definition mk_float (neg : bool) (m : N) (e : Z) : pyfloat :=
  let '(m', e') := strip_zeros (N.size_nat m) m e in FFinite neg m' e'.

Definition lower_chars (cs : list ascii) : list ascii := map lower_char cs.

(** [float(s)] for a [str] argument; [None] is the [ValueError]. *)
Definition py_float (s : string) : option pyfloat :=
  let '(neg, cs) := read_sign (list_ascii_of_string (strip s)) in
  let low := string_of_list_ascii (lower_chars cs) in
  if (low =? "inf") || (low =? "infinity") then Some (FInf neg)
  else if low =? "nan" then Some FNaN
  else
    let '(ip, r1) := digit_run false cs in
    let '(fp, r2) :=
      match r1 with
      | c :: r => if (c =? ".")%char then digit_run false r else ([], r1)
      | [] => ([], [])
      end in
    let m := digits_value (ip ++ fp)%list in
    let e0 := (- Z.of_nat (List.length fp))%Z in
    match ip, fp with
    | [], [] => None
    | _, _ =>
        match r2 with
        | [] => Some (mk_float neg m e0)
        | c :: r3 =>
            if (lower_char c =? "e")%char then
              let '(eneg, r4) := read_sign r3 in
              match digit_run false r4 with
              | ([], _) => None
              | (ed, []) =>
                  let x := Z.of_N (digits_value ed) in
                  Some (mk_float neg m (e0 + (if eneg then - x else x))%Z)
              | (_, _ :: _) => None
              end
            else None
        end
    end.

Definition N_digits (m : N) : string := NilEmpty.string_of_uint (N.to_uint m).

Fixpoint zeros (n : nat) : string :=
  match n with O => "" | S n' => String "0" (zeros n') end.

(** [repr(f)] (also [str(f)] and an f-string field): fixed notation when
    the decimal point falls in [(-4, 16]], scientific notation otherwise. *)
Definition float_repr (f : pyfloat) : string :=
  match f with
  | FInf neg => (if neg then "-" else "") ++ "inf"
  | FNaN => "nan"
  | FFinite neg m e =>
      let sgn := if neg then "-" else "" in
      if (m =? 0)%N then sgn ++ "0.0"
      else
        let ds := N_digits m in
        let n := Z.of_nat (String.length ds) in
        let decpt := (n + e)%Z in
        if ((-4 <? decpt)%Z && (decpt <=? 16)%Z) then
          if (0 <=? e)%Z then sgn ++ ds ++ zeros (Z.to_nat e) ++ ".0"
          else if (0 <? decpt)%Z then
            sgn ++ take (Z.to_nat decpt) ds ++ "." ++ drop (Z.to_nat decpt) ds
          else sgn ++ "0." ++ zeros (Z.to_nat (- decpt)) ++ ds
        else
          let x := (decpt - 1)%Z in
          sgn ++ take 1 ds
              ++ (if (1 <? n)%Z then "." ++ drop 1 ds else "")
              ++ "e" ++ (if (x <? 0)%Z then "-" else "+")
              ++ (if (Z.abs x <? 10)%Z then "0" else "")
              ++ N_digits (Z.to_N (Z.abs x))
  end.

(** Decimal text of a Python [int]. *)
Definition Z_str (z : Z) : string :=
  if (z <? 0)%Z then "-" ++ N_digits (Z.to_N (- z)) else N_digits (Z.to_N z).

(* ------------------------------------------------------------------ *)
(** ** Python values (as produced by [json.loads] and by the parsers) *)

Local Set Warnings "-register-all".

Inductive pyval :=
| PNone
| PBool (b : bool)
| PInt (z : Z)
| PFloat (f : pyfloat)
| PStr (s : string)
| PList (l : list pyval)
| PDict (d : list (string * pyval)).

Definition hex_digit (n : nat) : ascii :=
  if (n <? 10)%nat then ascii_of_nat (48 + n) else ascii_of_nat (87 + n).

(** One character inside [repr] of a string quoted with [q]. *)
Definition repr_char (q c : ascii) : string :=
  let n := nat_of_ascii c in
  if (c =? "\")%char then "\\"
  else if (c =? q)%char then String "\" (String q "")
  else if (n =? 10)%nat then "\n"
  else if (n =? 13)%nat then "\r"
  else if (n =? 9)%nat then "\t"
  else if (n <? 32)%nat || (n =? 127)%nat then
    "\x" ++ String (hex_digit (n / 16)) (String (hex_digit (n mod 16)) "")
  else String c "".

Fixpoint repr_chars (q : ascii) (s : string) : string :=
  match s with
  | EmptyString => ""
  | String c s' => repr_char q c ++ repr_chars q s'
  end.

(** [repr(s)]: single quotes unless [s] has a single quote and no double
    quote. *)
Definition dquote : ascii := ascii_of_nat 34.

Definition str_repr (s : string) : string :=
  let q := if contains "'" s && negb (contains (String dquote "") s) then dquote else "'"%char in
  String q (repr_chars q s ++ String q "").

Fixpoint py_repr (v : pyval) : string :=
  match v with
  | PNone => "None"
  | PBool b => if b then "True" else "False"
  | PInt z => Z_str z
  | PFloat f => float_repr f
  | PStr s => str_repr s
  | PList l => "[" ++ join ", " (map py_repr l) ++ "]"
  | PDict d =>
      "{" ++ join ", " (map (fun kv => str_repr (fst kv) ++ ": " ++ py_repr (snd kv)) d)
          ++ "}"
  end.

(** [str(v)] (and an f-string field [{v}]). *)
Definition py_str (v : pyval) : string :=
  match v with
  | PStr s => s
  | _ => py_repr v
  end.

(** Truthiness ([if v:]). *)
Definition py_truthy (v : pyval) : bool :=
  match v with
  | PNone => false
  | PBool b => b
  | PInt z => negb (z =? 0)%Z
  | PFloat (FFinite _ m _) => negb (m =? 0)%N
  | PFloat _ => true
  | PStr s => negb (s =? "")
  | PList l => negb (List.length l =? 0)%nat
  | PDict d => negb (List.length d =? 0)%nat
  end.

(** [v == "s"] *)
Definition py_eq_str (v : pyval) (s : string) : bool :=
  match v with PStr s' => s' =? s | _ => false end.

(** Dictionaries with string keys, in insertion order (keys unique). *)
Fixpoint dict_get (k : string) (d : list (string * pyval)) : option pyval :=
  match d with
  | [] => None
  | (k', v) :: d' => if k' =? k then Some v else dict_get k d'
  end.

(** [d.get(k, dflt)] *)
Definition get_or (k : string) (d : list (string * pyval)) (dflt : pyval) : pyval :=
  match dict_get k d with Some v => v | None => dflt end.

(** [k in d] *)
Definition has_key (k : string) (d : list (string * pyval)) : bool :=
  match dict_get k d with Some _ => true | None => false end.

(** [d[k] = v]: an existing key keeps its place. *)
Fixpoint dict_set (k : string) (v : pyval) (d : list (string * pyval))
  : list (string * pyval) :=
  match d with
  | [] => [(k, v)]
  | (k', v') :: d' => if k' =? k then (k, v) :: d' else (k', v') :: dict_set k v d'
  end.

(** [v[k]] with a string key. *)
Definition subscript (v : pyval) (k : string) : exc pyval :=
  match v with
  | PDict d => match dict_get k d with Some x => Ok x | None => Raise KeyError end
  | _ => Raise TypeError
  end.

(** [float(s)] raising [ValueError]. *)
Definition float_exc (s : string) : exc pyfloat :=
  match py_float s with Some f => Ok f | None => Raise ValueError end.

Definition float_zero : pyfloat := FFinite false 0 0.
Definition float_one : pyfloat := FFinite false 1 0.
Definition float_09 : pyfloat := FFinite false 9 (-1).

(* ------------------------------------------------------------------ *)
(** ** NAR.py: the field parsers *)

(** [parseTruth(truth_obj)] *)
Definition parseTruth (truth_obj : pyval) : pyval :=
  match truth_obj with
  | PDict d => PDict [("frequency", get_or "frequency" d (PFloat float_one));
                      ("confidence", get_or "confidence" d (PFloat float_09))]
  | _ => PNone
  end.

(** [parseTask(task_obj)] *)
Definition parseTask (task_obj : pyval) : pyval :=
  match task_obj with
  | PDict d =>
      let result := [("term", get_or "term" d (PStr ""));
                     ("occurrenceTime",
                       PStr (py_str (get_or "occurrence-time" d (PStr "eternal"))))] in
      let event_type := get_or "type" d (PStr "belief") in
      let punct := if py_eq_str event_type "goal" then "!"
                   else if py_eq_str event_type "question" then "?" else "." in
      let result := dict_set "punctuation" (PStr punct) result in
      let result := match dict_get "truth" d with
                    | Some t => dict_set "truth" (parseTruth t) result
                    | None => result
                    end in
      let result := match dict_get "priority" d with
                    | Some p => dict_set "Priority" (PStr (py_str p)) result
                    | None => result
                    end in
      PDict result
  | _ => PNone
  end.

(** [parseExecution(exec_str)] on a dict (a decoded JSON record). *)
Definition parseExecution_dict (d : list (string * pyval)) : pyval :=
  PDict [("operator", get_or "operation" d (PStr ""));
         ("arguments", get_or "arguments" d (PList []));
         ("desire", get_or "desire" d (PFloat float_zero))].

(** [float(s.split("desire=")[1].split()[0])] *)
Definition desire_of (s : string) : exc pyfloat :=
  seg <- nth_exc 1 (py_split "desire=" s);;
  tok <- nth_exc 0 (split_ws seg);;
  float_exc tok.

(** [parseExecution(exec_str)] on a text line. *)
Definition parseExecution_str (exec_str : string) : exc pyval :=
  if contains "^executed:" exec_str then
    seg <- nth_exc 1 (py_split "^executed:" exec_str);;
    let parts := split_ws (strip seg) in
    let operator := match parts with p :: _ => p | [] => "" end in
    desire <- (if contains "desire=" exec_str then desire_of exec_str
               else Ok float_zero);;
    Ok (PDict [("operator", PStr operator); ("arguments", PList []);
               ("desire", PFloat desire)])
  else Ok (PDict [("operator", PStr ""); ("arguments", PList []);
                  ("desire", PFloat float_zero)]).

(** [parseReason(lines)] *)
Fixpoint parseReason (lines : list string) : exc pyval :=
  match lines with
  | [] => Ok PNone
  | line :: rest =>
      if contains "^decide:" line then
        seg <- nth_exc 1 (py_split "^decide:" line);;
        let parts := strip seg in
        desire <- (if contains "desire=" parts then desire_of parts
                   else Ok float_zero);;
        implication <- nth_exc 0 (py_split "desire=" parts);;
        Ok (PDict [("desire", PFloat desire);
                   ("hypothesis", PDict [("term", PStr (strip implication));
                                         ("punctuation", PStr ".")]);
                   ("precondition", PNone)])
      else parseReason rest
  end.

(** The collections of [GetOutput]'s result a line can be appended to. *)
Inductive role := RInput | RDerivation | RAnswer | RExecution | RSelection.

Definition role_eqb (a b : role) : bool :=
  match a, b with
  | RInput, RInput | RDerivation, RDerivation | RAnswer, RAnswer
  | RExecution, RExecution | RSelection, RSelection => true
  | _, _ => false
  end.

(** [{"term": task_str, "punctuation": "."}] *)
Definition text_task (s : string) : pyval :=
  PDict [("term", PStr s); ("punctuation", PStr ".")].

(** [line.split(sep)[1].strip()] *)
Definition after_sep (sep line : string) : exc string :=
  seg <- nth_exc 1 (py_split sep line);; Ok (strip seg).

Record output := mkOutput {
  out_input : list pyval;
  out_derivations : list pyval;
  out_answers : list pyval;
  out_executions : list pyval;
  out_reason : pyval;
  out_selections : list pyval;
  out_raw : string;
  out_requestOutputArgs : bool }.

Definition of_role (r : role) (evs : list (role * pyval)) : list pyval :=
  map snd (filter (fun p => role_eqb (fst p) r) evs).

Section Classifier.

(** [json.loads]: the decoded value, [Raise JSONDecodeError] on text that
    is not JSON, or another exception (such as [RecursionError] on deeply
    nested input). *)
Variable json_loads : string -> exc pyval.

(** The JSON branch of the loop body of [GetOutput]. *)
Definition json_part (line : string) : exc (list (role * pyval)) :=
  if startswith "{" line || startswith "[" line then
    match json_loads line with
    | Ok (PDict d) =>
        if has_key "operation" d then Ok [(RExecution, parseExecution_dict d)]
        else if has_key "term" d then
          let parsed := parseTask (PDict d) in
          if py_truthy parsed then Ok [(RDerivation, parsed)] else Ok []
        else Ok []
    | Ok _ => Ok []
    | Raise JSONDecodeError => Ok []
    | Raise e => Raise e
    end
  else Ok [].

(** The text branch (the [if]/[elif] chain) of the loop body. *)
Definition text_part (line : string) : exc (list (role * pyval)) :=
  if startswith "^executed:" line then
    e <- parseExecution_str line;; Ok [(RExecution, e)]
  else if startswith "Input:" line then
    t <- after_sep "Input:" line;; Ok [(RInput, text_task t)]
  else if startswith "Derived:" line || startswith "Revised:" line then
    t <- after_sep ":" line;; Ok [(RDerivation, text_task t)]
  else if startswith "Answer:" line then
    t <- after_sep "Answer:" line;; Ok [(RAnswer, text_task t)]
  else if startswith "Selected:" line then
    t <- after_sep "Selected:" line;; Ok [(RSelection, text_task t)]
  else Ok [].

(** One iteration of the loop of [GetOutput]: the events this line
    contributes, in the order they are appended. *)
Definition classify_line (line : string) : exc (list (role * pyval)) :=
  j <- json_part line;;
  t <- text_part line;;
  Ok (j ++ t)%list.

Fixpoint classify_all (lines : list string) : exc (list (role * pyval)) :=
  match lines with
  | [] => Ok []
  | l :: ls => e <- classify_line l;; r <- classify_all ls;; Ok (e ++ r)%list
  end.

(** [GetOutput] after [GetRawOutput] returned [(lines, requestOutputArgs)]. *)
Definition GetOutput_of (lines : list string) (requestOutputArgs : bool)
  : exc output :=
  evs <- classify_all lines;;
  reason <- parseReason lines;;
  Ok (mkOutput (of_role RInput evs) (of_role RDerivation evs) (of_role RAnswer evs)
               (of_role RExecution evs) reason (of_role RSelection evs)
               (join (String (ascii_of_nat 10) "") lines) requestOutputArgs).

End Classifier.

(* ------------------------------------------------------------------ *)
(** ** Statistics parsers *)

(** The [try] body of NAR.py's [GetStats] loop. *)
Definition stats_entry_NAR (line : string) : exc (string * pyval) :=
  l0 <- nth_exc 0 (py_split ":" line);;
  let left := replace_space (strip l0) in
  r1 <- nth_exc 1 (py_split ":" line);;
  right <- float_exc (strip r1);;
  Ok (left, PFloat right).

(** NAR.py [GetStats] on the lines [GetRawOutput] returned. *)
Fixpoint GetStats_NAR_aux (lines : list string) (stats : list (string * pyval))
  : exc (list (string * pyval)) :=
  match lines with
  | [] => Ok stats
  | line :: rest =>
      if contains ":" line && negb (startswith "//" line) then
        match stats_entry_NAR line with
        | Ok (k, v) => GetStats_NAR_aux rest (dict_set k v stats)
        | Raise ValueError | Raise IndexError => GetStats_NAR_aux rest stats
        | Raise e => Raise e
        end
      else GetStats_NAR_aux rest stats
  end.

Definition GetStats_NAR (lines : list string) : exc (list (string * pyval)) :=
  GetStats_NAR_aux lines [].

(** [int(value)], else [float(value)], else [value]. *)
Definition stats_value (value : string) : pyval :=
  match py_int value with
  | Some z => PInt z
  | None => match py_float value with
            | Some f => PFloat f
            | None => PStr value
            end
  end.

(** [NAR.stats] of NAR_working.py (and [GetStats] of
    NAR_native_threaded.py, which has the same loop) on the output lines. *)
Fixpoint stats_working_aux (lines : list string) (stats : list (string * pyval))
  : list (string * pyval) :=
  match lines with
  | [] => stats
  | line :: rest =>
      if contains ":" line && negb (startswith "//" line) then
        match py_split1 ":" line with
        | [k; v] => stats_working_aux rest (dict_set (strip k) (stats_value (strip v)) stats)
        | _ => stats_working_aux rest stats
        end
      else stats_working_aux rest stats
  end.

Definition stats_working (lines : list string) : list (string * pyval) :=
  stats_working_aux lines [].

(* ------------------------------------------------------------------ *)
(** ** NAR.py [PrintedTask] *)

(** [str.isdigit()] (ASCII digits, non-empty). *)
Definition isdigit (s : string) : bool :=
  negb (s =? "") &&
  forallb (fun c => match digit_of c with Some _ => true | None => false end)
          (list_ascii_of_string s).

(** [a + b] where [b] is a [str]: defined only when [a] is a [str]. *)
Definition add_str (a : pyval) (b : pyval) : exc string :=
  match a, b with
  | PStr x, PStr y => Ok (x ++ y)
  | _, _ => Raise TypeError
  end.

Definition PrintedTask (task : pyval) : exc string :=
  match task with
  | PDict d =>
      term <- subscript task "term";;
      punct <- subscript task "punctuation";;
      st <- add_str term punct;;
      st <- (if py_eq_str (get_or "occurrenceTime" d (PStr "eternal")) "eternal"
             then Ok st
             else ot <- subscript task "occurrenceTime";;
                  if py_eq_str ot "now" then Ok (st ++ " :|:")
                  else match ot with
                       | PStr o => if isdigit o
                                   then Ok (st ++ " :|: occurrenceTime=" ++ o)
                                   else Ok st
                       | _ => Raise AttributeError (* [.isdigit()] on a non-str *)
                       end);;
      st <- (if has_key "Priority" d
             then p <- subscript task "Priority";; Ok (st ++ " Priority=" ++ py_str p)
             else Ok st);;
      (if has_key "truth" d
       then tr <- subscript task "truth";;
            f <- subscript tr "frequency";;
            c <- subscript tr "confidence";;
            Ok (st ++ " Truth: frequency=" ++ py_str f ++ " confidence=" ++ py_str c)
       else Ok st)
  | _ => Raise TypeError
  end.

(* ------------------------------------------------------------------ *)
(** ** NAR.py: blocking reads from the engine's stdout *)

(** What the adapter did on the engine's pipes: a line written to its stdin
    (without the newline), or the value a [readline()] returned. *)
Inductive ioev := EvWrite (s : string) | EvRead (s : string).

(** [io_stdout] lists the values successive [readline()] calls return; past
    its end [readline()] returns [""] (end of stream).  [io_writable] is the
    number of lines the engine's stdin still accepts: the engine exits after
    reading that many more, and its end of the pipe is then closed. *)
Record iostate := mkIO { io_stdout : list string; io_log : list ioev; io_writable : nat }.

(** Code that acts on the pipes and may raise: the state after the call, or
    after the statement that raised. *)
Definition io (A : Type) : Type := iostate -> exc A * iostate.

Definition io_ret {A} (a : A) : io A := fun st => (Ok a, st).

Definition io_lift {A} (m : exc A) : io A := fun st => (m, st).

Definition io_bind {A B} (m : io A) (k : A -> io B) : io B :=
  fun st => let '(r, st1) := m st in
            match r with
            | Ok a => k a st1
            | Raise e => (Raise e, st1)
            end.

Notation "x <~ m ;; k" := (io_bind m (fun x => k))
  (at level 61, m at next level, right associativity).

(** [stdin.write(s + "\n"); stdin.flush()]: the stdin of [spawnNAR] is line
    buffered, so the line goes down the pipe at once, and on a closed pipe
    (the engine has exited) it raises [BrokenPipeError], which no caller in
    NAR.py catches. *)
Definition write_line (s : string) : io unit := fun st =>
  match io_writable st with
  | O => (Raise BrokenPipeError, st)
  | S n => (Ok tt, mkIO (io_stdout st) (io_log st ++ [EvWrite s])%list n)
  end.

(** The [while True] loop of NAR.py's [GetRawOutput]: the collected lines,
    [requestOutputArgs], the values read, and the unread rest. *)
Fixpoint raw_read_loop (out : list string)
  : (list string * bool) * (list string * list string) :=
  match out with
  | [] => (([], false), ([""], []))
  | raw :: out' =>
      if raw =? "" then (([], false), ([raw], out'))
      else
        let line := strip raw in
        if contains "done with" line && contains "additional inference steps" line
        then (([], false), ([raw], out'))
        else
          let kept := if line =? "" then [] else [line] in
          if contains "operation result product expected" (lower line)
          then ((kept, true), ([raw], out'))
          else
            let '((ls, fl), (rd, rest)) := raw_read_loop out' in
            (((kept ++ ls)%list, fl), (raw :: rd, rest))
  end.

(** The read loop on the pipe: [readline()] does not raise. *)
Definition read_loop_io : io (list string * bool) := fun st =>
  let '(res, (rd, rest)) := raw_read_loop (io_stdout st) in
  (Ok res, mkIO rest (io_log st ++ map EvRead rd)%list (io_writable st)).

(** NAR.py [GetRawOutput(usedNAR, send_zero)] *)
Definition GetRawOutput_NAR (send_zero : bool) : io (list string * bool) :=
  _ <~ (if send_zero then write_line "0" else io_ret tt);;
  read_loop_io.

Inductive addinput_result :=
| AIStats (stats : list (string * pyval))
| AIOutput (o : output).

Section Adapter.

Variable json_loads : string -> exc pyval.

(** NAR.py [GetOutput(usedNAR)] *)
Definition GetOutput_NAR : io output :=
  r <~ GetRawOutput_NAR true;;
  io_lift (GetOutput_of json_loads (fst r) (snd r)).

(** NAR.py [GetStats(usedNAR)] *)
Definition GetStats_NAR_io : io (list (string * pyval)) :=
  _ <~ write_line "*stats";;
  r <~ GetRawOutput_NAR true;;
  io_lift (GetStats_NAR (fst r)).

(** NAR.py [AddInput(narsese, Print, usedNAR)]; printing to the caller's
    own stdout is not modelled. *)
Definition AddInput_NAR (narsese : string) : io addinput_result :=
  _ <~ write_line narsese;;
  if narsese =? "*stats" then
    s <~ GetStats_NAR_io;; io_ret (AIStats s)
  else
    o <~ GetOutput_NAR;; io_ret (AIOutput o).

End Adapter.

(* ------------------------------------------------------------------ *)
(** ** NAR_native_threaded.py / NAR_working.py: the queue drain *)

(** A line the reader thread put on the queue ([line.rstrip()]), the time
    (ms) it became available, and the command whose response it is part
    of (for the leakage property only; the code never looks at it). *)
Record item := mkItem { arrival : Z; tag : nat; text : string }.

(** [output_queue.get(timeout=0.05)], in ms. *)
Definition poll : Z := 50.

Inductive get_result :=
| Got (it : item) (t' : Z) (rest : list item)
| Empty (t' : Z).

(** [get] at time [t]: the head if it is already there, else the head as
    soon as it arrives within the poll interval, else [queue.Empty] when
    the interval has elapsed. *)
Definition queue_get (q : list item) (t : Z) : get_result :=
  match q with
  | it :: rest =>
      if (arrival it <=? t)%Z then Got it t rest
      else if (arrival it <=? t + poll)%Z then Got it (arrival it) rest
      else Empty (t + poll)
  | [] => Empty (t + poll)
  end.

Record rstate := mkR { now : Z; pending : list item; collected : list item }.

Inductive step_result := Continue (s : rstate) | Finish (s : rstate).

Section BatchReader.

(** The [try] body after [get] returned a line: whether to [break], and
    the new list of lines. *)
Variable on_item : item -> list item -> bool * list item.

(** One iteration of [while time.time() < deadline:]. *)
Definition drain_step (deadline : Z) (s : rstate) : step_result :=
  if (now s <? deadline)%Z then
    match queue_get (pending s) (now s) with
    | Got it t' rest =>
        let '(stop, ls) := on_item it (collected s) in
        if stop then Finish (mkR t' rest ls) else Continue (mkR t' rest ls)
    | Empty t' =>
        match collected s with
        | [] => Continue (mkR t' (pending s) [])
        | _ :: _ => Finish (mkR t' (pending s) (collected s))
        end
    end
  else Finish s.

(** The loop; [None] only if the fuel runs out, which [drain] never lets
    happen (see [drain_facts]). *)
Fixpoint drain_run (fuel : nat) (deadline : Z) (s : rstate) : option rstate :=
  match fuel with
  | O => None
  | S f =>
      match drain_step deadline s with
      | Finish s' => Some s'
      | Continue s' => drain_run f deadline s'
      end
  end.

(** The drain started at [t0] with a budget of [timeout] ms. *)
Definition drain (q : list item) (t0 timeout : Z) : option rstate :=
  drain_run (S (List.length q + Z.to_nat timeout)) (t0 + timeout) (mkR t0 q []).

End BatchReader.

(** NAR_native_threaded.py [GetRawOutput]: ["//*done"] ends the batch and
    is dropped, empty lines are skipped. *)
Definition on_item_threaded (it : item) (lines : list item) : bool * list item :=
  if text it =? "//*done" then (true, lines)
  else (false, if text it =? "" then lines else (lines ++ [it])%list).

(** NAR_working.py [_drain_queue]: every line is kept, ["//*done"]
    included, and ["//*done"] ends the batch. *)
Definition on_item_working (it : item) (lines : list item) : bool * list item :=
  (text it =? "//*done", (lines ++ [it])%list).

(** [GetRawOutput(nar, timeout_sec)] *)
Definition GetRawOutput_threaded (q : list item) (t0 timeout : Z) : option rstate :=
  drain on_item_threaded q t0 timeout.

(** [NAR._drain_queue(timeout)] *)
Definition drain_queue_working (q : list item) (t0 timeout : Z) : option rstate :=
  drain on_item_working q t0 timeout.

(** The loop of NAR_native_threaded.py's [spawnNAR] that consumes the
    welcome message: lines are taken off the queue and discarded until a
    [get] finds nothing for 50 ms or the 0.5 s budget is spent.  The
    result is the time the loop ends and what is left on the queue. *)
Fixpoint welcome_run (fuel : nat) (deadline t : Z) (q : list item) : option (Z * list item) :=
  match fuel with
  | O => None
  | S f =>
      if (t <? deadline)%Z then
        match queue_get q t with
        | Got _ t' rest => welcome_run f deadline t' rest
        | Empty t' => Some (t', q)
        end
      else Some (t, q)
  end.

Definition spawn_welcome_threaded (q : list item) (t0 : Z) : option (Z * list item) :=
  welcome_run (S (List.length q)) (t0 + 500) t0 q.

(** Commands issued one after another: the [k]-th is written [gap_k] ms
    after the previous batch returned, then its batch is drained from what
    is left on the queue.  Each entry is the write time and the final
    state of the drain. *)
Fixpoint session (on_item : item -> list item -> bool * list item)
  (timeout : Z) (q : list item) (t : Z) (gaps : list Z) : list (Z * rstate) :=
  match gaps with
  | [] => []
  | g :: gs =>
      let w := (t + g)%Z in
      match drain on_item q w timeout with
      | Some s => (w, s) :: session on_item timeout (pending s) (now s) gs
      | None => []
      end
  end.

(** What the drain loop consumes at each round: lines still queued and
    milliseconds left before the deadline. *)
Definition measure (deadline : Z) (s : rstate) : nat :=
  (List.length (pending s) + Z.to_nat (deadline - now s))%nat.

(* ------------------------------------------------------------------ *)
(** ** NAR_working.py: [NAR.terminate] on a [subprocess.Popen] *)

(** [Running]: alive; [Exited]: dead but not yet waited for
    ([returncode] is [None]); [Reaped]: waited for ([returncode] set). *)
Inductive pstatus := Running | Exited | Reaped.

(** How the engine reacts to the [quit] command. *)
Inductive quit_behaviour := QuitsWithin1s | QuitsLater | IgnoresQuit.

Record proc := mkProc { status : pstatus; got_quit : bool; on_quit : quit_behaviour }.

(** [proc.stdin.write("quit\n"); proc.stdin.flush()]: the pipe is broken
    once the engine is dead. *)
Definition write_quit (p : proc) : exc proc :=
  match status p with
  | Running => Ok (mkProc Running true (on_quit p))
  | Exited | Reaped => Raise BrokenPipeError
  end.

(** [proc.wait(timeout=1)] *)
Definition wait1 (p : proc) : exc proc :=
  match status p with
  | Running =>
      match on_quit p with
      | QuitsWithin1s =>
          if got_quit p then Ok (mkProc Reaped (got_quit p) (on_quit p))
          else Raise TimeoutExpired
      | _ => Raise TimeoutExpired
      end
  | Exited | Reaped => Ok (mkProc Reaped (got_quit p) (on_quit p))
  end.

(** [proc.terminate()]: [poll()] first (reaping a dead child); nothing is
    sent once [returncode] is set; otherwise SIGTERM, whose default action
    ends the engine. *)
Definition popen_terminate (p : proc) : exc proc :=
  match status p with
  | Running => Ok (mkProc Exited (got_quit p) (on_quit p))
  | Exited | Reaped => Ok (mkProc Reaped (got_quit p) (on_quit p))
  end.

(** [NAR.terminate]: the bare [except:] catches every exception of the
    [try] body and runs [proc.terminate()]. *)
Definition terminate (p : proc) : exc unit * proc :=
  let handler := fun (p0 : proc) =>
    match popen_terminate p0 with
    | Ok p' => (Ok tt, p')
    | Raise e => (Raise e, p0)
    end in
  match write_quit p with
  | Raise _ => handler p
  | Ok p1 =>
      match wait1 p1 with
      | Ok p2 => (Ok tt, p2)
      | Raise _ => handler p1
      end
  end.


(* ------------------------------------------------------------------ *)
(** ** [AddInput] and [GetStats] of the queue-based adapters *)

(** The dict [AddInput] returns in NAR_native_threaded.py and
    NAR_working.py: keys ["output"], ["executions"], ["derivations"] and
    ["answers"]. *)
Record adapter_result := mkAR {
  ar_output : list string;
  ar_executions : list string;
  ar_derivations : list string;
  ar_answers : list string }.

(** NAR_working.py [NAR.add_input] once [send] returned [output]: three
    list comprehensions, [l[9:]] and [l[8:]] being [drop 9] and [drop 8]. *)
Definition add_input_result_working (output : list string) : adapter_result :=
  mkAR output
    (filter (startswith "^") output)
    (map (drop 9) (filter (startswith "Derived:") output))
    (map (drop 8) (filter (startswith "Answer:") output)).

(** The [for line in output] loop of NAR_native_threaded.py [AddInput]. *)
Fixpoint threaded_result_loop (lines : list string) (r : adapter_result)
  : adapter_result :=
  match lines with
  | [] => r
  | line :: rest =>
      let r' :=
        if startswith "^" line then
          mkAR (ar_output r) (ar_executions r ++ [line])%list
               (ar_derivations r) (ar_answers r)
        else if startswith "Derived:" line then
          mkAR (ar_output r) (ar_executions r)
               (ar_derivations r ++ [strip (drop 8 line)])%list (ar_answers r)
        else if startswith "Answer:" line then
          mkAR (ar_output r) (ar_executions r) (ar_derivations r)
               (ar_answers r ++ [strip (drop 7 line)])%list
        else r in
      threaded_result_loop rest r'
  end.

Definition add_input_result_threaded (output : list string) : adapter_result :=
  threaded_result_loop output (mkAR output [] [] []).

(** NAR_native_threaded.py [AddInput(narsese)] once the command was written
    at [t0]: [GetRawOutput] with its default [timeout_sec=2.0]. *)
Definition AddInput_threaded (q : list item) (t0 : Z) : option (adapter_result * rstate) :=
  match GetRawOutput_threaded q t0 2000 with
  | Some s => Some (add_input_result_threaded (map text (collected s)), s)
  | None => None
  end.

(** NAR_working.py [NAR.add_input(narsese)] once [send] wrote the command at
    [t0]: [_drain_queue(timeout=wait)] with the default [wait=0.3]. *)
Definition add_input_working (q : list item) (t0 : Z) : option (adapter_result * rstate) :=
  match drain_queue_working q t0 300 with
  | Some s => Some (add_input_result_working (map text (collected s)), s)
  | None => None
  end.

(** NAR_native_threaded.py [GetStats] and NAR_working.py [NAR.stats]: the
    stats loop over the ["output"] of [AddInput("*stats")]. *)
Definition GetStats_threaded (q : list item) (t0 : Z)
  : option (list (string * pyval) * rstate) :=
  match AddInput_threaded q t0 with
  | Some (r, s) => Some (stats_working (ar_output r), s)
  | None => None
  end.

Definition stats_working_io (q : list item) (t0 : Z)
  : option (list (string * pyval) * rstate) :=
  match add_input_working q t0 with
  | Some (r, s) => Some (stats_working (ar_output r), s)
  | None => None
  end.

(* ------------------------------------------------------------------ *)
(** ** [terminateNAR] (NAR.py, NAR_native_threaded.py) and process groups *)

(** A row of the kernel's process table: pid, process group, and whether
    the process still runs.  A process that was waited for has no row. *)
Record osproc := mkOS { os_pid : nat; os_pgid : nat; os_alive : bool }.

Fixpoint os_lookup (pid : nat) (tbl : list osproc) : option osproc :=
  match tbl with
  | [] => None
  | p :: tbl' => if (os_pid p =? pid)%nat then Some p else os_lookup pid tbl'
  end.

(** [subprocess.Popen(...)] in [spawnNAR], with neither [start_new_session]
    nor [process_group]: the child stays in its parent's process group. *)
Definition os_spawn (parent : osproc) (child_pid : nat) (tbl : list osproc)
  : list osproc :=
  mkOS child_pid (os_pgid parent) true :: tbl.

(** [os.getpgid(pid)]: [None] is [ProcessLookupError]. *)
Definition os_getpgid (pid : nat) (tbl : list osproc) : option nat :=
  option_map os_pgid (os_lookup pid tbl).

(** [os.killpg(g, SIGTERM)]: every process of group [g] gets SIGTERM, whose
    default action (no handler is installed) ends it. *)
Definition os_killpg (g : nat) (tbl : list osproc) : list osproc :=
  map (fun p => if (os_pgid p =? g)%nat then mkOS (os_pid p) (os_pgid p) false else p) tbl.

(** [terminateNAR(usedNAR)]: on [ProcessLookupError] the bare [except:] runs
    [usedNAR.terminate()], which sends nothing to a child already waited
    for. *)
Definition terminateNAR (child_pid : nat) (tbl : list osproc) : list osproc :=
  match os_getpgid child_pid tbl with
  | Some g => os_killpg g tbl
  | None => tbl
  end.



(* ------------------------------------------------------------------ *)
(** ** Shapes of drained lines and of statistics *)

(** The lines consumed end with ["//*done"] at most, and only there. *)
Definition done_only_last (consumed : list item) : Prop :=
  Forall (fun it => text it <> "//*done") consumed \/
  exists c d, consumed = (c ++ [d])%list /\ text d = "//*done" /\
              Forall (fun it => text it <> "//*done") c.

(** What the threaded [GetRawOutput] keeps of one queue item. *)
Definition keep_threaded (it : item) : list item :=
  if text it =? "//*done" then [] else if text it =? "" then [] else [it].

(** A key/value pair of NAR.py's statistics: a key with no space and no
    colon, a float value. *)
Definition nar_stat_ok (kv : string * pyval) : Prop :=
  contains " " (fst kv) = false /\ contains ":" (fst kv) = false /\
  exists f, snd kv = PFloat f.

(** A string with no whitespace character (one token of [str.split()]). *)
Definition no_space (s : string) : bool :=
  forallb (fun c => negb (is_space c)) (list_ascii_of_string s).

(* ------------------------------------------------------------------ *)
(** ** Vocabulary of the properties *)


(** The two tests [GetRawOutput] applies to a stripped line, and the lines
    it keeps from a run of raw lines. *)
Definition is_done_line (line : string) : bool :=
  contains "done with" line && contains "additional inference steps" line.

Definition is_args_line (line : string) : bool :=
  contains "operation result product expected" (lower line).

Definition kept_line (raw : string) : list string :=
  if strip raw =? "" then [] else [strip raw].

(** A raw line at which [GetRawOutput]'s loop breaks ([""] is end of file). *)
Definition stops_read (raw : string) : bool :=
  (raw =? "") || is_done_line (strip raw) || is_args_line (strip raw).

(** The whitespace-separated words after the first ["desire="] of a line (up
    to a second one): the first of them is the desire [parseExecution]
    reads. *)
Definition desire_tokens (line : string) : list string :=
  split_ws (nth 1 (py_split "desire=" line) "").



(** What [PrintedTask] appends for the [occurrenceTime] of a task. *)
Definition occurrence_suffix (v : pyval) : string :=
  let o := py_str v in
  if o =? "eternal" then ""
  else if o =? "now" then " :|:"
  else if isdigit o then " :|: occurrenceTime=" ++ o
  else "".

(** Between two states of the pipes the adapter wrote some lines and then
    read values: the values read are a prefix of the engine's stdout and the
    rest is left unread, or, at the end of the stream, all of it and the
    final [""]. *)
Definition reads_prefix_after_writes (st st' : iostate) : Prop :=
  exists ws rd,
    io_log st' = (io_log st ++ map EvWrite ws ++ map EvRead rd)%list /\
    (io_stdout st = (rd ++ io_stdout st')%list \/
     (rd = (io_stdout st ++ [""])%list /\ io_stdout st' = [])).

(** The rest of a line after a word: empty, or starting with whitespace. *)
Definition space_or_end (s : string) : Prop :=
  s = "" \/ exists x r, s = String x r /\ is_space x = true.

(* ================================================================== *)
(** * Lemmas on the string and dictionary model *)

(** Sample evaluations of the number and stats readers. *)

Example py_int_42 : py_int "42" = Some 42%Z.
Proof. reflexivity. Qed.
Example py_float_057 : py_float "0.57" = Some (FFinite false 57 (-2)).
Proof. reflexivity. Qed.
Example float_repr_ex :
  map float_repr [FFinite false 1 0; FFinite false 9 (-1); FFinite false 1 (-5);
                  FFinite false 1 16; FFinite false 12345 (-2)]
  = ["1.0"; "0.9"; "1e-05"; "1e+16"; "123.45"].
Proof. reflexivity. Qed.

Example stats_NAR_ex :
  GetStats_NAR ["currentTime: 42"; "average priority: 0.57"; "note: something odd"]
  = Ok [("currentTime", PFloat (FFinite false 42 0));
        ("average_priority", PFloat (FFinite false 57 (-2)))].
Proof. reflexivity. Qed.

Example stats_working_ex :
  stats_working ["currentTime: 42"; "average priority: 0.57"; "note: something odd"]
  = [("currentTime", PInt 42); ("average priority", PFloat (FFinite false 57 (-2)));
     ("note", PStr "something odd")].
Proof. reflexivity. Qed.

Lemma prefix_app : forall p s, startswith p s = true -> exists r, s = p ++ r.
Proof.
  induction p as [|c p IH]; intros s H.
  - exists s; reflexivity.
  - destruct s as [|c' s']; simpl in H; [discriminate|].
    apply andb_prop in H as [Hc H]. apply Ascii.eqb_eq in Hc as ->.
    destruct (IH s' H) as [r ->]. exists r; reflexivity.
Qed.

Lemma split_fuel_nonempty : forall f sep s, exists x xs, split_fuel f sep s = x :: xs.
Proof.
  destruct f; intros; simpl; [eauto|].
  destruct (find_sub sep s); eauto.
Qed.

Lemma py_split_found : forall sep s i,
  find_sub sep s = Some i ->
  exists b rest, py_split sep s = take i s :: b :: rest.
Proof.
  intros sep s i H. unfold py_split. simpl. rewrite H.
  destruct (split_fuel_nonempty (String.length s) sep (drop (i + String.length sep) s))
    as (x & xs & ->).
  eauto.
Qed.

Lemma prefix_find_sub : forall p s, startswith p s = true -> find_sub p s = Some 0.
Proof. intros p [|c s] H; cbn [find_sub]; rewrite H; reflexivity. Qed.

Lemma after_sep_prefix : forall p line,
  startswith p line = true -> exists t, after_sep p line = Ok t.
Proof.
  intros p line H. unfold after_sep.
  destruct (py_split_found p line 0 (prefix_find_sub p line H)) as (b & rest & ->).
  simpl. eauto.
Qed.

Lemma dict_get_set_same : forall k v d, dict_get k (dict_set k v d) = Some v.
Proof.
  induction d as [|[k' v'] d IH]; simpl.
  - rewrite String.eqb_refl. reflexivity.
  - destruct (String.eqb_spec k' k) as [->|Hne]; simpl.
    + rewrite String.eqb_refl. reflexivity.
    + apply String.eqb_neq in Hne. rewrite Hne. exact IH.
Qed.

Lemma dict_get_set_other : forall k k' v d,
  k' <> k -> dict_get k (dict_set k' v d) = dict_get k d.
Proof.
  intros k k' v d Hne. induction d as [|[k0 v0] d IH]; simpl.
  - apply String.eqb_neq in Hne. rewrite Hne. reflexivity.
  - destruct (String.eqb_spec k0 k') as [->|H0]; simpl.
    + apply String.eqb_neq in Hne. rewrite Hne. reflexivity.
    + rewrite IH. reflexivity.
Qed.

(** A string with no colon, then a colon: the split is at that colon. *)
Lemma find_sub_colon : forall k v,
  contains ":" k = false -> find_sub ":" (k ++ ":" ++ v) = Some (String.length k).
Proof.
  induction k as [|c k IH]; intros v H.
  - reflexivity.
  - unfold contains in H. cbn [find_sub startswith append] in H |- *.
    destruct (Ascii.eqb ":" c) eqn:Hc; cbn [andb] in H |- *.
    + discriminate.
    + destruct (find_sub ":" k) eqn:E; [discriminate|].
      assert (Hk : contains ":" k = false) by (unfold contains; rewrite E; reflexivity).
      pose proof (IH v Hk) as IH'. cbn [append] in IH'. rewrite IH'. reflexivity.
Qed.

Lemma take_app_len : forall k r, take (String.length k) (k ++ r) = k.
Proof. induction k; simpl; intros; [reflexivity|]. rewrite IHk. reflexivity. Qed.

Lemma drop_app_len : forall k r n, drop (String.length k + n) (k ++ r) = drop n r.
Proof. induction k; simpl; intros; [reflexivity|]. apply IHk. Qed.

Lemma split_fuel_none : forall f sep s, find_sub sep s = None -> split_fuel f sep s = [s].
Proof. destruct f; intros; simpl; [reflexivity|]. rewrite H. reflexivity. Qed.

Lemma after_sep_found : forall sep line i,
  find_sub sep line = Some i -> exists t, after_sep sep line = Ok t.
Proof.
  intros sep line i H. unfold after_sep.
  destruct (py_split_found sep line i H) as (b & rest & ->). simpl. eauto.
Qed.



(* ================================================================== *)
(** * The claims *)

(** C10: when the task record carries a ["truth"] field, the parsed task's
    truth is [parseTruth] of it: a dict gives a truth whose missing
    ["frequency"] is [1.0] and whose missing ["confidence"] is [0.9]
    (present fields are kept), and any other value gives [None] rather
    than an exception. *)
Theorem parseTask_truth_defaults : forall d t,
  dict_get "truth" d = Some t ->
  exists r, parseTask (PDict d) = PDict r /\
    dict_get "truth" r =
      Some (match t with
            | PDict td =>
                PDict [("frequency", match dict_get "frequency" td with
                                     | Some f => f | None => PFloat float_one end);
                       ("confidence", match dict_get "confidence" td with
                                      | Some c => c | None => PFloat float_09 end)]
            | _ => PNone
            end).
Proof.
  intros d t H. unfold parseTask. rewrite H. eexists; split; [reflexivity|].
  destruct (dict_get "priority" d).
  - rewrite dict_get_set_other by discriminate. rewrite dict_get_set_same.
    destruct t; reflexivity.
  - rewrite dict_get_set_same. destruct t; reflexivity.
Qed.

Lemma parseTask_truth_defaults_witness :
  let d := [("term", PStr "bird"); ("truth", PDict [("confidence", PFloat float_09)])] in
  dict_get "truth" d = Some (PDict [("confidence", PFloat float_09)]) /\
  exists r, parseTask (PDict d) = PDict r /\
    dict_get "truth" r = Some (PDict [("frequency", PFloat float_one);
                                      ("confidence", PFloat float_09)]).
Proof.
  intros d. split; [reflexivity|].
  exact (parseTask_truth_defaults d (PDict [("confidence", PFloat float_09)]) eq_refl).
Defined.



Lemma py_split_colon : forall k v,
  contains ":" k = false -> contains ":" v = false ->
  py_split ":" (k ++ ":" ++ v) = [k; v].
Proof.
  intros k v Hk Hv.
  assert (Hv' : find_sub ":" v = None)
    by (unfold contains in Hv; destruct (find_sub ":" v); [discriminate|reflexivity]).
  unfold py_split. cbn [split_fuel].
  rewrite (find_sub_colon k v Hk), take_app_len.
  change (String.length ":") with 1. rewrite drop_app_len. cbn [drop append].
  rewrite (split_fuel_none _ _ _ Hv'). reflexivity.
Qed.

Lemma py_split1_colon : forall k v,
  contains ":" k = false -> py_split1 ":" (k ++ ":" ++ v) = [k; v].
Proof.
  intros k v Hk. unfold py_split1.
  rewrite (find_sub_colon k v Hk), take_app_len.
  change (String.length ":") with 1. rewrite drop_app_len. cbn [drop append]. reflexivity.
Qed.

Lemma contains_colon_line : forall k v,
  contains ":" k = false -> contains ":" (k ++ ":" ++ v) = true.
Proof. intros k v Hk. unfold contains. rewrite (find_sub_colon k v Hk). reflexivity. Qed.


(** C2 (counterexample): neither parser maps the three sample lines to
    [{"currentTime": 42, "average_priority": 0.57, "note": "something odd"}]. *)
Lemma stats_sample_map_not_produced :
  let lines := ["currentTime: 42"; "average priority: 0.57"; "note: something odd"] in
  let claimed := [("currentTime", PInt 42);
                  ("average_priority", PFloat (FFinite false 57 (-2)));
                  ("note", PStr "something odd")] in
  GetStats_NAR lines <> Ok claimed /\ stats_working lines <> claimed.
Proof. vm_compute. split; discriminate. Qed.

(* ------------------------------------------------------------------ *)
(** ** The queue drain: termination, timing and provenance *)

Lemma queue_get_got : forall q t it t' rest,
  queue_get q t = Got it t' rest ->
  q = it :: rest /\ (t <= t')%Z /\ (arrival it <= t')%Z /\ (t' <= t + poll)%Z.
Proof.
  intros [|x q] t it t' rest H; simpl in H; [discriminate|].
  unfold poll in *.
  destruct (Z.leb_spec (arrival x) t); [injection H as <- <- <-; repeat split; lia|].
  destruct (Z.leb_spec (arrival x) (t + 50)); [|discriminate].
  injection H as <- <- <-. repeat split; lia.
Qed.

Lemma queue_get_empty : forall q t t', queue_get q t = Empty t' -> t' = (t + poll)%Z.
Proof.
  intros [|x q] t t' H; simpl in H; [injection H; auto|].
  destruct (arrival x <=? t)%Z; [discriminate|].
  destruct (arrival x <=? t + poll)%Z; [discriminate|]. injection H; auto.
Qed.

Section DrainFacts.

Variable on_item : item -> list item -> bool * list item.
(** The lines kept after a [get] are the earlier ones and the new one. *)
Hypothesis on_item_incl : forall it ls, incl (snd (on_item it ls)) (it :: ls).

Lemma step_continue : forall dl s s',
  drain_step on_item dl s = Continue s' ->
  (now s < dl)%Z /\ (now s <= now s' <= now s + poll)%Z /\
  (measure dl s' < measure dl s)%nat /\
  incl (pending s') (pending s) /\ incl (collected s') (pending s ++ collected s) /\
  (forall it, In it (collected s') -> arrival it <= now s' \/ In it (collected s))%Z.
Proof.
  intros dl s s' H. unfold drain_step in H.
  destruct (Z.ltb_spec (now s) dl) as [Hlt|]; [|discriminate].
  destruct (queue_get (pending s) (now s)) as [it t' rest|t'] eqn:Eq.
  - apply queue_get_got in Eq as (Hq & H1 & H2 & H3).
    destruct (on_item it (collected s)) as [stop ls] eqn:Eo.
    destruct stop; [discriminate|]. injection H as <-.
    pose proof (on_item_incl it (collected s)) as Hi. rewrite Eo in Hi. simpl in Hi.
    unfold measure; simpl. rewrite Hq. simpl.
    split; [lia|]. split; [lia|]. split; [lia|].
    split; [intros x Hx; right; exact Hx|].
    split.
    + intros x Hx. apply Hi in Hx as [<-|Hx]; [left; reflexivity|right; apply in_or_app; right; exact Hx].
    + intros x Hx. apply Hi in Hx as [<-|Hx]; [left; lia|right; exact Hx].
  - apply queue_get_empty in Eq as ->.
    destruct (collected s) as [|c cs] eqn:Ec; [|discriminate]. injection H as <-.
    unfold measure, poll in *; simpl.
    split; [lia|]. split; [lia|]. split; [lia|].
    split; [intros x Hx; exact Hx|]. split; intros x Hx; contradiction.
Qed.

Lemma step_finish : forall dl s s',
  drain_step on_item dl s = Finish s' ->
  ((dl <= now s)%Z /\ s' = s) \/
  ((now s < dl)%Z /\ (now s <= now s' <= now s + poll)%Z /\
   incl (collected s') (pending s ++ collected s) /\
   (forall it, In it (collected s') -> arrival it <= now s' \/ In it (collected s))%Z /\
   incl (pending s') (pending s)).
Proof.
  intros dl s s' H. unfold drain_step in H.
  destruct (Z.ltb_spec (now s) dl) as [Hlt|Hge]; [|left; injection H; auto].
  right. split; [exact Hlt|].
  destruct (queue_get (pending s) (now s)) as [it t' rest|t'] eqn:Eq.
  - apply queue_get_got in Eq as (Hq & H1 & H2 & H3).
    destruct (on_item it (collected s)) as [stop ls] eqn:Eo.
    destruct stop; [|discriminate]. injection H as <-.
    pose proof (on_item_incl it (collected s)) as Hi. rewrite Eo in Hi. simpl in Hi.
    simpl. rewrite Hq. split; [lia|]. split; [|split].
    + intros x Hx. apply Hi in Hx as [<-|Hx]; [left; reflexivity|right; apply in_or_app; right; exact Hx].
    + intros x Hx. apply Hi in Hx as [<-|Hx]; [left; lia|right; exact Hx].
    + intros x Hx. right. exact Hx.
  - apply queue_get_empty in Eq as ->.
    destruct (collected s) as [|c cs] eqn:Ec; [discriminate|]. injection H as <-.
    simpl. unfold poll. split; [lia|]. split; [|split].
    + intros x Hx. apply in_or_app. right. exact Hx.
    + intros x Hx. right. exact Hx.
    + intros x Hx. exact Hx.
Qed.

Lemma drain_run_some : forall fuel dl s,
  (measure dl s < fuel)%nat -> exists s', drain_run on_item fuel dl s = Some s'.
Proof.
  induction fuel as [|fuel IH]; intros dl s Hm; [lia|].
  simpl. destruct (drain_step on_item dl s) as [s'|s'] eqn:E.
  - apply step_continue in E as (_ & _ & Hm' & _). apply IH. lia.
  - eauto.
Qed.

(** Whatever the loop returns: its clock has not gone back, it is less than
    one poll interval past the deadline (when it started before it), and
    every line it holds was on the queue and had arrived by then. *)
Lemma drain_run_facts : forall fuel dl s s',
  drain_run on_item fuel dl s = Some s' ->
  (now s <= now s')%Z /\
  ((now s < dl + poll)%Z -> (now s' < dl + poll)%Z) /\
  incl (pending s') (pending s) /\
  incl (collected s') (pending s ++ collected s) /\
  (forall it, In it (collected s') -> (arrival it <= now s')%Z \/ In it (collected s)).
Proof.
  induction fuel as [|fuel IH]; intros dl s s' H; simpl in H; [discriminate|].
  destruct (drain_step on_item dl s) as [s1|s1] eqn:E.
  - apply step_continue in E as (Hlt & Ht & _ & Hp & Hc & Ha).
    destruct (IH dl s1 s' H) as (Ht' & Hb & Hp' & Hc' & Ha').
    split; [lia|]. split; [intros; apply Hb; unfold poll in *; lia|].
    split; [intros x Hx; apply Hp, Hp', Hx|]. split.
    + intros x Hx. apply Hc' in Hx. apply in_app_or in Hx as [Hx|Hx].
      * apply in_or_app. left. apply Hp. exact Hx.
      * apply Hc. exact Hx.
    + intros x Hx. destruct (Ha' x Hx) as [Hx'|Hx']; [left; exact Hx'|].
      destruct (Ha x Hx') as [Hx''|Hx'']; [left; lia|right; exact Hx''].
  - injection H as <-. apply step_finish in E as [[Hge ->]|(Hlt & Ht & Hc & Ha & Hp)].
    + split; [lia|]. split; [auto|]. split; [intros x Hx; exact Hx|]. split.
      * intros x Hx. apply in_or_app. right. exact Hx.
      * intros x Hx. right. exact Hx.
    + split; [lia|]. split; [intros; unfold poll in *; lia|]. auto.
Qed.

Lemma drain_facts : forall q t0 timeout,
  exists s, drain on_item q t0 timeout = Some s /\
    (t0 <= now s)%Z /\ ((0 <= timeout)%Z -> (now s < t0 + timeout + poll)%Z) /\
    incl (pending s) q /\ incl (collected s) q /\
    (forall it, In it (collected s) -> (arrival it <= now s)%Z).
Proof.
  intros q t0 timeout. unfold drain.
  destruct (drain_run_some (S (List.length q + Z.to_nat timeout)) (t0 + timeout)
              (mkR t0 q [])) as [s Hs].
  { unfold measure. simpl. lia. }
  exists s. split; [exact Hs|].
  destruct (drain_run_facts _ _ _ _ Hs) as (Ht & Hb & Hp & Hc & Ha). simpl in *.
  split; [lia|]. split; [intros; apply Hb; unfold poll; lia|].
  split; [exact Hp|]. split.
  - intros x Hx. apply Hc in Hx. rewrite app_nil_r in Hx. exact Hx.
  - intros x Hx. destruct (Ha x Hx) as [H'|[]]. exact H'.
Qed.

End DrainFacts.

Lemma on_item_threaded_incl : forall it ls, incl (snd (on_item_threaded it ls)) (it :: ls).
Proof.
  intros it ls x Hx. unfold on_item_threaded in Hx.
  destruct (text it =? "//*done"); simpl in Hx; [right; exact Hx|].
  destruct (text it =? ""); [right; exact Hx|].
  apply in_app_or in Hx as [Hx|[<-|[]]]; [right; exact Hx|left; reflexivity].
Qed.

Lemma on_item_working_incl : forall it ls, incl (snd (on_item_working it ls)) (it :: ls).
Proof.
  intros it ls x Hx. simpl in Hx.
  apply in_app_or in Hx as [Hx|[<-|[]]]; [right; exact Hx|left; reflexivity].
Qed.

Lemma session_facts : forall on_item,
  (forall it ls, incl (snd (on_item it ls)) (it :: ls)) ->
  forall timeout gaps q t, Forall (fun g => (0 <= g)%Z) gaps ->
  forall i w s, nth_error (session on_item timeout q t gaps) i = Some (w, s) ->
    (t <= w)%Z /\ (w <= now s)%Z /\ incl (collected s) q /\ incl (pending s) q /\
    (forall it, In it (collected s) -> (arrival it <= now s)%Z) /\
    (forall j w' s', (i < j)%nat ->
       nth_error (session on_item timeout q t gaps) j = Some (w', s') -> (now s <= w')%Z).
Proof.
  intros on_item Hincl timeout gaps. induction gaps as [|g gs IH]; intros q t Hg i w s Hi.
  - destruct i; discriminate.
  - inversion Hg as [|g' gs' Hg0 Hgs]; subst. simpl in Hi |- *.
    destruct (drain_facts on_item Hincl q (t + g) timeout)
      as (s0 & Hd & Ht0 & _ & Hp0 & Hc0 & Ha0).
    rewrite Hd in Hi |- *.
    destruct i as [|i]; simpl in Hi.
    + injection Hi as <- <-.
      split; [lia|]. split; [lia|]. split; [exact Hc0|]. split; [exact Hp0|].
      split; [exact Ha0|].
      intros [|j] w' s' Hj Hn; [lia|]. simpl in Hn.
      destruct (IH (pending s0) (now s0) Hgs j w' s' Hn) as (H1 & _). exact H1.
    + destruct (IH (pending s0) (now s0) Hgs i w s Hi) as (H1 & H2 & H3 & H4 & H5 & H6).
      split; [lia|]. split; [exact H2|].
      split; [intros x Hx; apply Hp0, H3, Hx|]. split; [intros x Hx; apply Hp0, H4, Hx|].
      split; [exact H5|].
      intros [|j] w' s' Hj Hn; [lia|]. simpl in Hn.
      apply (H6 j w' s'); [lia|exact Hn].
Qed.

(** C5 (amended).  Both batch readers ([NAR_native_threaded.GetRawOutput]
    and [NAR._drain_queue]) always return, never raising ([queue.Empty] is
    caught), with the lines they collected, all taken from the queue; the
    clock when they return is at most one poll interval (50 ms) past the
    deadline, since the last [get] may block up to its full timeout after a
    check made just before the deadline.  Once a line is held, a poll during
    which nothing arrives ends the batch with the lines so far, and at the
    deadline the loop stops and returns what it holds. *)
Theorem batch_read_terminates_near_deadline : forall oi,
  oi = on_item_threaded \/ oi = on_item_working ->
  (forall q t0 timeout, (0 <= timeout)%Z ->
     exists s, drain oi q t0 timeout = Some s /\
       (t0 <= now s < t0 + timeout + poll)%Z /\ incl (collected s) q) /\
  (forall dl s, (now s < dl)%Z -> collected s <> [] ->
     (forall it, In it (pending s) -> (now s + poll < arrival it)%Z) ->
     drain_step oi dl s = Finish (mkR (now s + poll) (pending s) (collected s))) /\
  (forall dl s, (dl <= now s)%Z -> drain_step oi dl s = Finish s).
Proof.
  intros oi Hoi.
  assert (Hincl : forall it ls, incl (snd (oi it ls)) (it :: ls))
    by (destruct Hoi as [->| ->]; [exact on_item_threaded_incl|exact on_item_working_incl]).
  split; [|split].
  - intros q t0 timeout Ht.
    destruct (drain_facts oi Hincl q t0 timeout) as (s & Hd & H1 & H2 & _ & H3 & _).
    exists s. split; [exact Hd|]. split; [split; [exact H1|exact (H2 Ht)]|exact H3].
  - intros dl s Hlt Hne Hidle. unfold drain_step.
    destruct (Z.ltb_spec (now s) dl) as [_|]; [|lia].
    assert (Hq : queue_get (pending s) (now s) = Empty (now s + poll)).
    { destruct (pending s) as [|x xs] eqn:Ep; [reflexivity|].
      assert (Hx := Hidle x (or_introl eq_refl)). simpl.
      destruct (Z.leb_spec (arrival x) (now s)); [unfold poll in *; lia|].
      destruct (Z.leb_spec (arrival x) (now s + poll)); [lia|reflexivity]. }
    rewrite Hq. destruct (collected s) as [|c cs]; [contradiction|reflexivity].
  - intros dl s Hge. unfold drain_step.
    destruct (Z.ltb_spec (now s) dl); [lia|reflexivity].
Qed.

Lemma batch_read_terminates_near_deadline_witness :
  exists s, drain_queue_working [mkItem 120 0 "Answer: x"; mkItem 130 0 "//*done"] 100 300 = Some s /\
    (100 <= now s < 100 + 300 + poll)%Z /\
    incl (collected s) [mkItem 120 0 "Answer: x"; mkItem 130 0 "//*done"].
Proof.
  destruct (batch_read_terminates_near_deadline on_item_working (or_intror eq_refl)) as (H & _).
  apply (H [mkItem 120 0 "Answer: x"; mkItem 130 0 "//*done"] 100%Z 300%Z).
  lia.
Defined.

(** C5, as stated, fails: a reader with a 2000 ms deadline that got its
    first line at 1990 ms polls once more and returns at 2040 ms. *)
Lemma threaded_read_passes_deadline :
  ~ (forall q t0 timeout s, (0 <= timeout)%Z ->
       GetRawOutput_threaded q t0 timeout = Some s -> (now s <= t0 + timeout)%Z).
Proof.
  intros H.
  assert (E : GetRawOutput_threaded [mkItem 1990 0 "x"] 0 2000
              = Some (mkR 2040 [] [mkItem 1990 0 "x"])) by (vm_compute; reflexivity).
  assert (H0 : (0 <= 2000)%Z) by lia.
  specialize (H _ _ _ _ H0 E). simpl in H. lia.
Qed.

(** C3 (amended).  For commands issued one after another (each written a
    non-negative gap after the previous batch returned), with either reader,
    every line of batch [i] was on the engine's output queue, had arrived by
    the time batch [i] returned, and so arrived no later than the write of
    any later command [j > i]: a line emitted after a later command was
    written never appears in an earlier batch.  Lines that arrived before
    command [i] was written may still be in batch [i]. *)
Theorem batch_lines_precede_later_writes : forall oi,
  oi = on_item_threaded \/ oi = on_item_working ->
  forall timeout q t gaps, Forall (fun g => (0 <= g)%Z) gaps ->
  forall i w s it,
    nth_error (session oi timeout q t gaps) i = Some (w, s) ->
    In it (collected s) ->
    In it q /\ (arrival it <= now s)%Z /\
    (forall j w' s', (i < j)%nat ->
       nth_error (session oi timeout q t gaps) j = Some (w', s') ->
       (arrival it <= w')%Z).
Proof.
  intros oi Hoi.
  assert (Hincl : forall it ls, incl (snd (oi it ls)) (it :: ls))
    by (destruct Hoi as [->| ->]; [exact on_item_threaded_incl|exact on_item_working_incl]).
  intros timeout q t gaps Hg i w s it Hi Hin.
  destruct (session_facts oi Hincl timeout gaps q t Hg i w s Hi)
    as (_ & _ & Hc & _ & Ha & Hlater).
  split; [exact (Hc it Hin)|]. split; [exact (Ha it Hin)|].
  intros j w' s' Hij Hj. specialize (Hlater j w' s' Hij Hj). specialize (Ha it Hin). lia.
Qed.

Lemma batch_lines_precede_later_writes_witness :
  In (mkItem 10 0 "A") [mkItem 10 0 "A"; mkItem 70 0 "B"; mkItem 90 1 "C"] /\
  (arrival (mkItem 10 0 "A") <= 60)%Z.
Proof.
  assert (Hn : nth_error (session on_item_threaded 2000
                 [mkItem 10 0 "A"; mkItem 70 0 "B"; mkItem 90 1 "C"] 0 [0%Z; 20%Z]) 0
               = Some (0%Z, mkR 60 [mkItem 70 0 "B"; mkItem 90 1 "C"] [mkItem 10 0 "A"]))
    by (vm_compute; reflexivity).
  assert (Hg : Forall (fun g => (0 <= g)%Z) [0%Z; 20%Z]) by (repeat constructor; lia).
  destruct (batch_lines_precede_later_writes on_item_threaded (or_introl eq_refl)
              _ _ _ _ Hg _ _ _ (mkItem 10 0 "A") Hn (or_introl eq_refl)) as (H1 & H2 & _).
  split; [exact H1|exact H2].
Defined.

(** C3, as stated, fails: line B, emitted (tag 0) for command 0 at 70 ms
    after that batch ended on its idle grace at 60 ms, is in the batch of
    command 1, which was written at 80 ms, after B arrived. *)
Lemma late_line_leaks_into_next_batch :
  ~ (forall timeout q t gaps i w s it,
       nth_error (session on_item_threaded timeout q t gaps) i = Some (w, s) ->
       In it (collected s) -> (w < arrival it)%Z).
Proof.
  intros H.
  assert (Hn : nth_error (session on_item_threaded 2000
                 [mkItem 10 0 "A"; mkItem 70 0 "B"; mkItem 90 1 "C"] 0 [0%Z; 20%Z]) 1
               = Some (80%Z, mkR 140 [] [mkItem 70 0 "B"; mkItem 90 1 "C"]))
    by (vm_compute; reflexivity).
  specialize (H _ _ _ _ _ _ _ (mkItem 70 0 "B") Hn (or_introl eq_refl)).
  simpl in H. lia.
Qed.

(* ------------------------------------------------------------------ *)
(** ** Where NAR.py's read loop stops *)

Lemma raw_read_loop_no_stop : forall out,
  Forall (fun r => stops_read r = false) out ->
  raw_read_loop out = ((flat_map kept_line out, false), ((out ++ [""])%list, [])).
Proof.
  induction out as [|r out IH]; intros H; [reflexivity|].
  inversion H as [|r' out' Hr Hout]; subst.
  unfold stops_read in Hr. apply orb_false_elim in Hr as [Hr Ha].
  apply orb_false_elim in Hr as [He Hd].
  unfold is_done_line in Hd. unfold is_args_line in Ha.
  cbn [raw_read_loop]. rewrite He, Hd, Ha, (IH Hout).
  unfold kept_line. reflexivity.
Qed.

Lemma raw_read_loop_stop : forall pre raw post,
  Forall (fun r => stops_read r = false) pre -> stops_read raw = true ->
  raw_read_loop (pre ++ raw :: post) =
    (((flat_map kept_line pre ++
        (if (raw =? "") || is_done_line (strip raw) then [] else kept_line raw))%list,
      negb ((raw =? "") || is_done_line (strip raw))),
     ((pre ++ [raw])%list, post)).
Proof.
  induction pre as [|r pre IH]; intros raw post H Hs.
  - unfold stops_read in Hs. cbn [raw_read_loop app flat_map].
    unfold is_done_line, is_args_line, kept_line in *.
    destruct (raw =? "") eqn:He; [reflexivity|].
    destruct (contains "done with" (strip raw) && contains "additional inference steps" (strip raw));
      [reflexivity|].
    cbn [orb] in Hs. rewrite Hs. reflexivity.
  - inversion H as [|r' pre' Hr Hpre]; subst.
    unfold stops_read in Hr. apply orb_false_elim in Hr as [Hr Ha].
    apply orb_false_elim in Hr as [He Hd].
    unfold is_done_line in Hd. unfold is_args_line in Ha.
    cbn [raw_read_loop app]. rewrite He, Hd, Ha, (IH raw post Hpre Hs).
    unfold kept_line. cbn [flat_map]. rewrite app_assoc. reflexivity.
Qed.

(** C4 (amended).  NAR.py's [GetRawOutput] reads until end of file, or until
    the first line that, stripped, CONTAINS both "done with" and "additional
    inference steps" (the line is dropped), or the first line whose
    lower-cased form CONTAINS "operation result product expected" (the line
    is kept and [requestOutputArgs] is set); matching is by substring, not
    equality.  No other line ends the read, and only the last kind sets the
    flag; the lines before are kept stripped, blank ones dropped, and the
    lines after are left unread.  [NAR_native_threaded.GetRawOutput] ends a
    batch exactly on a line equal to "//*done" (which it drops) and has no
    flag. *)
Theorem read_loop_terminators :
  (forall out, Forall (fun r => stops_read r = false) out ->
     raw_read_loop out = ((flat_map kept_line out, false), ((out ++ [""])%list, []))) /\
  (forall pre raw post,
     Forall (fun r => stops_read r = false) pre -> stops_read raw = true ->
     raw_read_loop (pre ++ raw :: post) =
       (((flat_map kept_line pre ++
           (if (raw =? "") || is_done_line (strip raw) then [] else kept_line raw))%list,
         negb ((raw =? "") || is_done_line (strip raw))),
        ((pre ++ [raw])%list, post))) /\
  (forall it ls, fst (on_item_threaded it ls) = (text it =? "//*done") /\
     ((text it =? "//*done") = true -> snd (on_item_threaded it ls) = ls)).
Proof.
  split; [exact raw_read_loop_no_stop|]. split; [exact raw_read_loop_stop|].
  intros it ls. unfold on_item_threaded.
  destruct (text it =? "//*done"); [split; reflexivity|].
  destruct (text it =? ""); split; (reflexivity || discriminate).
Qed.

Lemma read_loop_terminators_witness :
  raw_read_loop ["Answer: x"; " Operation result product expected: "; "rest"] =
    ((["Answer: x"; "Operation result product expected:"], true),
     (["Answer: x"; " Operation result product expected: "], ["rest"])).
Proof.
  destruct read_loop_terminators as (_ & H & _).
  apply (H ["Answer: x"] " Operation result product expected: " ["rest"]);
    [repeat constructor|]; vm_compute; reflexivity.
Defined.

(** C4, as stated, fails: a derivation is no terminator marker, so it should
    be collected, but a derived term that mentions "done with" and
    "additional inference steps" ends the read and is dropped. *)
Lemma derived_line_ends_read :
  ~ (forall l post, startswith "Derived:" l = true ->
       In (strip l) (fst (fst (raw_read_loop (l :: post))))).
Proof.
  intros H.
  specialize (H "Derived: <(done with) --> (additional inference steps)>." ["Answer: x"]
                eq_refl).
  vm_compute in H. exact H.
Qed.

(* ------------------------------------------------------------------ *)
(** ** Rendering a task and reading it back *)

(** C6 (amended).  Any task [parseTask] builds from an engine record with
    term "<bird --> animal>", type belief (or none), eternal occurrence time
    (or none), no priority and a truth that reads as frequency 1.0 and
    confidence 0.9 renders as "<bird --> animal>. Truth: frequency=1.0
    confidence=0.9".  [GetOutput] does not read that text back as the same
    task: the bare line is no event at all; behind "Input:", "Answer:" or
    "Selected:" the whole rendering becomes the term; behind "Derived:" or
    "Revised:" the term is cut at the next colon ("<bird --> animal>.
    Truth"); the punctuation is always "." and no truth is recorded. *)
Theorem printed_task_reparse : forall d t,
  dict_get "term" d = Some (PStr "<bird --> animal>") ->
  dict_get "type" d = None \/ dict_get "type" d = Some (PStr "belief") ->
  dict_get "occurrence-time" d = None \/
    dict_get "occurrence-time" d = Some (PStr "eternal") ->
  dict_get "priority" d = None ->
  dict_get "truth" d = Some t ->
  parseTruth t = PDict [("frequency", PFloat float_one); ("confidence", PFloat float_09)] ->
  let r := "<bird --> animal>. Truth: frequency=1.0 confidence=0.9" in
  PrintedTask (parseTask (PDict d)) = Ok r /\
  forall dec,
    classify_line dec r = Ok [] /\
    classify_line dec ("Input: " ++ r) = Ok [(RInput, text_task r)] /\
    classify_line dec ("Answer: " ++ r) = Ok [(RAnswer, text_task r)] /\
    classify_line dec ("Selected: " ++ r) = Ok [(RSelection, text_task r)] /\
    classify_line dec ("Derived: " ++ r) =
      Ok [(RDerivation, text_task "<bird --> animal>. Truth")] /\
    classify_line dec ("Revised: " ++ r) =
      Ok [(RDerivation, text_task "<bird --> animal>. Truth")].
Proof.
  intros d t Hterm Htype Hocc Hprio Htruth Hpt r. split.
  - unfold parseTask, get_or. rewrite Hterm, Hprio, Htruth, Hpt.
    destruct Htype as [Ht|Ht]; rewrite Ht;
      destruct Hocc as [Ho|Ho]; rewrite Ho; vm_compute; reflexivity.
  - intros dec. repeat split; vm_compute; reflexivity.
Qed.

Lemma printed_task_reparse_witness :
  PrintedTask (parseTask (PDict [("term", PStr "<bird --> animal>");
                                 ("type", PStr "belief");
                                 ("truth", PDict [("frequency", PFloat float_one)])]))
  = Ok "<bird --> animal>. Truth: frequency=1.0 confidence=0.9".
Proof.
  refine (proj1 (printed_task_reparse [("term", PStr "<bird --> animal>");
                                        ("type", PStr "belief");
                                        ("truth", PDict [("frequency", PFloat float_one)])]
                   (PDict [("frequency", PFloat float_one)])
                   eq_refl (or_intror eq_refl) (or_introl eq_refl) eq_refl eq_refl eq_refl)).
Defined.

(** C6, as stated, fails: under none of the line prefixes [GetOutput]
    recognises as tasks, nor bare, does the rendering of the parsed belief
    read back as a task with the same term, punctuation and truth. *)
Lemma printed_task_not_reparsed :
  ~ (forall dec, exists p r evs ro d,
       In p [""; "Input: "; "Derived: "; "Revised: "; "Answer: "; "Selected: "] /\
       PrintedTask (parseTask (PDict [("term", PStr "<bird --> animal>");
                                      ("type", PStr "belief");
                                      ("truth", PDict [("frequency", PFloat float_one);
                                                       ("confidence", PFloat float_09)])]))
         = Ok r /\
       classify_line dec (p ++ r) = Ok evs /\ In (ro, PDict d) evs /\
       dict_get "term" d = Some (PStr "<bird --> animal>") /\
       dict_get "punctuation" d = Some (PStr ".") /\
       dict_get "truth" d = Some (PDict [("frequency", PFloat float_one);
                                         ("confidence", PFloat float_09)])).
Proof.
  intros H.
  destruct (H (fun _ => Raise JSONDecodeError)) as (p & r & evs & ro & d & Hp & Hr & Hc & Hin & _ & _ & Ht).
  vm_compute in Hr. injection Hr as <-.
  repeat (destruct Hp as [<-|Hp]; [vm_compute in Hc; injection Hc as <-;
            simpl in Hin; repeat (destruct Hin as [Hin|Hin]; [injection Hin as _ <-; discriminate|]);
            exact Hin|]).
  exact Hp.
Qed.

(* ------------------------------------------------------------------ *)
(** ** Execution records *)

Lemma parseExecution_str_no_args : forall line v,
  parseExecution_str line = Ok v ->
  exists op de, v = PDict [("operator", PStr op); ("arguments", PList []); ("desire", PFloat de)].
Proof.
  intros line v H. unfold parseExecution_str in H.
  destruct (contains "^executed:" line).
  - destruct (nth_exc 1 (py_split "^executed:" line)) as [seg|e]; cbn [exc_bind] in H;
      [|discriminate].
    destruct (if contains "desire=" line then desire_of line else Ok float_zero)
      as [de|e]; cbn [exc_bind] in H; [|discriminate].
    injection H as <-. eauto.
  - injection H as <-. eauto.
Qed.


(** C7, as stated, fails: a text execution line that names its arguments
    after an "args" marker still yields the empty argument list. *)
Lemma text_execution_drops_arguments :
  ~ (forall line v, parseExecution_str line = Ok v -> contains "args" line = true ->
       exists r, v = PDict r /\ dict_get "arguments" r <> Some (PList [])).
Proof.
  intros H.
  destruct (H "^executed: ^pick executed with args ({SELF} * ball) desire=0.70"
              (PDict [("operator", PStr "^pick"); ("arguments", PList []);
                      ("desire", PFloat (FFinite false 7 (-1)))])
              ltac:(vm_compute; reflexivity) eq_refl) as (r & Hr & Ha).
  injection Hr as <-. apply Ha. reflexivity.
Qed.

(* ================================================================== *)
(** * Further properties of the adapters *)

(* ------------------------------------------------------------------ *)
(** ** Process groups *)

Lemma os_killpg_in : forall g tbl p,
  In p tbl -> In (if (os_pgid p =? g)%nat then mkOS (os_pid p) (os_pgid p) false else p)
                 (os_killpg g tbl).
Proof.
  intros g tbl p H. unfold os_killpg.
  apply (in_map (fun p => if (os_pgid p =? g)%nat then mkOS (os_pid p) (os_pgid p) false else p)).
  exact H.
Qed.

Lemma os_lookup_in : forall pid tbl p, os_lookup pid tbl = Some p -> In p tbl /\ os_pid p = pid.
Proof.
  induction tbl as [|q tbl IH]; intros p H; simpl in H; [discriminate|].
  destruct (Nat.eqb_spec (os_pid q) pid).
  - injection H as <-. split; [left; reflexivity|assumption].
  - destruct (IH p H). split; [right|]; assumption.
Qed.

(** [spawnNAR] leaves the engine in the caller's process group, so
    [terminateNAR] (also run by [Exit] and at interpreter exit) sends
    SIGTERM to the whole group: while the engine's row carries the caller's
    group, every process of that group, the calling Python process
    included, is ended, and processes of other groups are left alone. *)
Theorem terminateNAR_signals_callers_group : forall parent child_pid tbl,
  os_lookup child_pid (os_spawn parent child_pid tbl) =
    Some (mkOS child_pid (os_pgid parent) true) /\
  forall tbl' c, os_lookup child_pid tbl' = Some c -> os_pgid c = os_pgid parent ->
    (forall p, In p tbl' -> os_pgid p = os_pgid parent ->
       In (mkOS (os_pid p) (os_pgid p) false) (terminateNAR child_pid tbl')) /\
    (forall p, In p tbl' -> os_pgid p <> os_pgid parent -> In p (terminateNAR child_pid tbl')).
Proof.
  intros parent child_pid tbl. split.
  - simpl. rewrite Nat.eqb_refl. reflexivity.
  - intros tbl' c Hc Hg. unfold terminateNAR, os_getpgid. rewrite Hc. simpl. rewrite Hg.
    split; intros p Hp Hpg; pose proof (os_killpg_in (os_pgid parent) tbl' p Hp) as H.
    + rewrite Hpg, Nat.eqb_refl in H. rewrite Hpg. exact H.
    + apply Nat.eqb_neq in Hpg. rewrite Hpg in H. exact H.
Qed.

Lemma terminateNAR_signals_callers_group_witness :
  In (mkOS 100 7 false)
     (terminateNAR 200 (os_spawn (mkOS 100 7 true) 200 [mkOS 100 7 true; mkOS 50 7 true])).
Proof.
  destruct (terminateNAR_signals_callers_group (mkOS 100 7 true) 200
              [mkOS 100 7 true; mkOS 50 7 true]) as (Hl & H).
  destruct (H _ _ Hl eq_refl) as (Hin & _).
  apply (Hin (mkOS 100 7 true)); [right; left; reflexivity|reflexivity].
Defined.

(** One call of [NAR.terminate] waits for the engine only when it quits
    within the second granted to [wait]; an engine that ignores [quit] or
    takes longer is sent SIGTERM and left unreaped ([returncode] unset). *)
Theorem terminate_once_outcome : forall p,
  fst (terminate p) = Ok tt /\
  status (snd (terminate p)) =
    match status p, on_quit p with
    | Running, QuitsWithin1s => Reaped
    | Running, _ => Exited
    | _, _ => Reaped
    end /\
  on_quit (snd (terminate p)) = on_quit p.
Proof. intros [[] g []]; repeat split. Qed.

(* ------------------------------------------------------------------ *)
(** ** What a drain takes off the queue *)

Section DrainConsumes.

Variable on_item : item -> list item -> bool * list item.
Variable keep : item -> list item.
(** Both readers stop exactly on ["//*done"] and append what they keep. *)
Hypothesis on_item_shape :
  forall it ls, on_item it ls = (text it =? "//*done", (ls ++ keep it)%list).

Lemma drain_run_consumes : forall fuel dl s s',
  drain_run on_item fuel dl s = Some s' ->
  exists consumed,
    pending s = (consumed ++ pending s')%list /\
    collected s' = (collected s ++ flat_map keep consumed)%list /\
    done_only_last consumed.
Proof.
  induction fuel as [|fuel IH]; intros dl s s' H; simpl in H; [discriminate|].
  unfold drain_step in H.
  destruct (now s <? dl)%Z.
  2:{ injection H as <-. exists []. rewrite app_nil_r. split; [reflexivity|].
      split; [reflexivity|left; constructor]. }
  destruct (queue_get (pending s) (now s)) as [it t' rest|t'] eqn:Eq.
  - apply queue_get_got in Eq as (Hq & _).
    rewrite on_item_shape in H.
    destruct (String.eqb_spec (text it) "//*done") as [Hd|Hd].
    + injection H as <-. exists [it]. simpl. rewrite Hq. split; [reflexivity|].
      split; [rewrite app_nil_r; reflexivity|].
      right. exists [], it. split; [reflexivity|]. split; [exact Hd|constructor].
    + destruct (IH dl _ s' H) as (c & Hp & Hc & Hl). simpl in Hp, Hc.
      exists (it :: c). simpl. rewrite Hq, Hp. split; [reflexivity|].
      split; [rewrite Hc, <- app_assoc; reflexivity|].
      destruct Hl as [Hl|(c1 & d & -> & Hdd & Hl)].
      * left. constructor; assumption.
      * right. exists (it :: c1), d. split; [reflexivity|]. split; [exact Hdd|].
        constructor; assumption.
  - destruct (collected s) as [|x xs] eqn:Ec.
    + destruct (IH dl _ s' H) as (c & Hp & Hc & Hl). simpl in Hp, Hc.
      exists c. split; [exact Hp|]. split; [simpl; exact Hc|exact Hl].
    + injection H as <-. exists []. simpl. rewrite app_nil_r.
      split; [reflexivity|]. split; [reflexivity|left; constructor].
Qed.

End DrainConsumes.

Lemma on_item_threaded_shape : forall it ls,
  on_item_threaded it ls = (text it =? "//*done", (ls ++ keep_threaded it)%list).
Proof.
  intros it ls. unfold on_item_threaded, keep_threaded.
  destruct (text it =? "//*done"); [rewrite app_nil_r; reflexivity|].
  destruct (text it =? ""); [rewrite app_nil_r|]; reflexivity.
Qed.

Lemma on_item_working_shape : forall it ls,
  on_item_working it ls = (text it =? "//*done", (ls ++ [it])%list).
Proof. reflexivity. Qed.

(** NAR_working.py's [_drain_queue] loses and reorders nothing: the lines it
    returns followed by those left on the queue are the queue it started
    from, and ["//*done"] can only be the last line returned. *)
Theorem drain_queue_working_prefix : forall q t0 timeout,
  exists s, drain_queue_working q t0 timeout = Some s /\
    (collected s ++ pending s)%list = q /\ done_only_last (collected s).
Proof.
  intros q t0 timeout.
  destruct (drain_facts on_item_working on_item_working_incl q t0 timeout) as (s & Hd & _).
  exists s. split; [exact Hd|].
  destruct (drain_run_consumes on_item_working (fun it => [it]) on_item_working_shape
              _ _ _ _ Hd) as (c & Hp & Hc & Hl).
  simpl in Hp, Hc. assert (Hc' : collected s = c).
  { rewrite Hc. clear. induction c as [|x c IH]; [reflexivity|]. simpl. rewrite IH. reflexivity. }
  rewrite Hc'. split; [symmetry; exact Hp|exact Hl].
Qed.

(** NAR_native_threaded.py's [GetRawOutput] takes a prefix off the queue
    and returns, in order, the lines of that prefix that are neither empty
    nor ["//*done"]; ["//*done"] can only be the last line taken. *)
Theorem GetRawOutput_threaded_filters_prefix : forall q t0 timeout,
  exists s consumed, GetRawOutput_threaded q t0 timeout = Some s /\
    q = (consumed ++ pending s)%list /\
    collected s = filter (fun it => negb (text it =? "") && negb (text it =? "//*done"))
                         consumed /\
    done_only_last consumed /\
    Forall (fun it => text it <> "" /\ text it <> "//*done") (collected s).
Proof.
  intros q t0 timeout.
  destruct (drain_facts on_item_threaded on_item_threaded_incl q t0 timeout) as (s & Hd & _).
  destruct (drain_run_consumes on_item_threaded keep_threaded on_item_threaded_shape
              _ _ _ _ Hd) as (c & Hp & Hc & Hl).
  cbn [pending collected app] in Hp, Hc.
  assert (Hf : flat_map keep_threaded c =
               filter (fun it => negb (text it =? "") && negb (text it =? "//*done")) c).
  { clear. induction c as [|x c IH]; [reflexivity|]. cbn [flat_map filter].
    rewrite IH. unfold keep_threaded.
    destruct (text x =? "//*done"), (text x =? ""); reflexivity. }
  exists s, c. split; [exact Hd|]. split; [exact Hp|]. rewrite Hc, Hf.
  split; [reflexivity|]. split; [exact Hl|].
  apply Forall_forall. intros it Hit. apply filter_In in Hit as [_ Hit].
  apply andb_prop in Hit as [H1 H2]. apply negb_true_iff in H1, H2.
  apply String.eqb_neq in H1, H2. split; assumption.
Qed.

(* ------------------------------------------------------------------ *)
(** ** Single-character searches *)

Lemma contains_char_cons : forall c c' s,
  contains (String c "") (String c' s) = (c =? c')%char || contains (String c "") s.
Proof.
  intros c c' s. unfold contains. cbn [find_sub startswith].
  rewrite andb_true_r. destruct (c =? c')%char; [reflexivity|].
  cbn [orb]. destruct (find_sub (String c "") s); reflexivity.
Qed.

Lemma contains_char_app : forall c a b,
  contains (String c "") (a ++ b) = contains (String c "") a || contains (String c "") b.
Proof.
  intros c a b. induction a as [|c' a IH]; [reflexivity|].
  cbn [append]. rewrite !contains_char_cons, IH, orb_assoc. reflexivity.
Qed.

Lemma find_char_take : forall c s i,
  find_sub (String c "") s = Some i -> contains (String c "") (take i s) = false.
Proof.
  intros c s. induction s as [|c' s IH]; intros i H.
  - discriminate.
  - cbn [find_sub startswith] in H. rewrite andb_true_r in H.
    destruct (c =? c')%char eqn:Ec.
    + injection H as <-. reflexivity.
    + destruct (find_sub (String c "") s) as [j|] eqn:Ej; [|discriminate].
      injection H as <-. cbn [take]. rewrite contains_char_cons, Ec. exact (IH j eq_refl).
Qed.

Lemma find_char_none : forall c s,
  find_sub (String c "") s = None -> contains (String c "") s = false.
Proof. intros c s H. unfold contains. rewrite H. reflexivity. Qed.

Lemma lstrip_char : forall c s,
  contains (String c "") s = false -> contains (String c "") (lstrip s) = false.
Proof.
  intros c s. induction s as [|c' s IH]; intros H; [exact H|].
  rewrite contains_char_cons in H. apply orb_false_elim in H as [H1 H2].
  cbn [lstrip]. destruct (is_space c'); [exact (IH H2)|].
  rewrite contains_char_cons, H1, H2. reflexivity.
Qed.

Lemma rstrip_char : forall c s,
  contains (String c "") s = false -> contains (String c "") (rstrip s) = false.
Proof.
  intros c s. induction s as [|c' s IH]; intros H; [exact H|].
  rewrite contains_char_cons in H. apply orb_false_elim in H as [H1 H2].
  cbn [rstrip]. destruct ((rstrip s =? "") && is_space c'); [reflexivity|].
  rewrite contains_char_cons, H1, (IH H2). reflexivity.
Qed.

Lemma strip_char : forall c s,
  contains (String c "") s = false -> contains (String c "") (strip s) = false.
Proof. intros c s H. apply rstrip_char, lstrip_char, H. Qed.

Lemma replace_space_no_space : forall s, contains " " (replace_space s) = false.
Proof.
  induction s as [|c s IH]; [reflexivity|].
  cbn [replace_space]. rewrite contains_char_cons, IH, orb_false_r.
  destruct (c =? " ")%char eqn:E; [reflexivity|].
  destruct (Ascii.eqb_spec " " c) as [<-|]; [rewrite Ascii.eqb_refl in E; discriminate|reflexivity].
Qed.

Lemma replace_space_char : forall c s, (c =? " ")%char = false -> (c =? "_")%char = false ->
  contains (String c "") s = false -> contains (String c "") (replace_space s) = false.
Proof.
  intros c s Hs Hu. induction s as [|c' s IH]; intros H; [exact H|].
  rewrite contains_char_cons in H. apply orb_false_elim in H as [H1 H2].
  cbn [replace_space]. rewrite contains_char_cons, (IH H2), orb_false_r.
  destruct (c' =? " ")%char; [exact Hu|exact H1].
Qed.

(** The first piece of a split on a colon has no colon. *)
Lemma split_fuel_head_colon : forall f s, exists x rest,
  split_fuel f ":" s = x :: rest /\ (f <> O -> contains ":" x = false).
Proof.
  intros [|f] s; cbn [split_fuel].
  - exists s, []. split; [reflexivity|]. intros H; contradiction.
  - destruct (find_sub ":" s) as [i|] eqn:E.
    + eexists _, _. split; [reflexivity|]. intros _. exact (find_char_take ":" s i E).
    + exists s, []. split; [reflexivity|]. intros _. exact (find_char_none ":" s E).
Qed.

Lemma split_fuel_colon_step : forall f k x,
  contains ":" k = false -> split_fuel (S f) ":" (k ++ ":" ++ x) = k :: split_fuel f ":" x.
Proof.
  intros f k x Hk. cbn [split_fuel]. rewrite (find_sub_colon k x Hk), take_app_len.
  change (String.length ":") with 1. rewrite drop_app_len. reflexivity.
Qed.

Lemma split_fuel_colon_second : forall f k v rest,
  contains ":" k = false -> contains ":" v = false ->
  exists tl, split_fuel (S (S f)) ":" (k ++ ":" ++ v ++ ":" ++ rest) = k :: v :: tl.
Proof.
  intros f k v rest Hk Hv. rewrite (split_fuel_colon_step _ k _ Hk).
  rewrite (split_fuel_colon_step _ v _ Hv). eauto.
Qed.

(* ------------------------------------------------------------------ *)
(** ** The stats maps *)

Lemma dict_set_Forall : forall (P : string * pyval -> Prop) k v d,
  P (k, v) -> Forall P d -> Forall P (dict_set k v d).
Proof.
  intros P k v d Hkv. induction d as [|[k' v'] d IH]; intros H; simpl.
  - constructor; [exact Hkv|constructor].
  - inversion H as [|x y Hx Hd]; subst.
    destruct (k' =? k); constructor; auto.
Qed.

Lemma stats_entry_NAR_shape : forall line,
  match stats_entry_NAR line with
  | Ok kv => nar_stat_ok kv
  | Raise e => e = IndexError \/ e = ValueError
  end.
Proof.
  intros line. unfold stats_entry_NAR, py_split.
  destruct (split_fuel_head_colon (S (String.length line)) line) as (x & rest & E & Hx).
  rewrite E. cbn [nth_exc nth_error exc_bind].
  destruct rest as [|r1 rest]; cbn [nth_error]; [left; reflexivity|].
  cbn [nth_exc nth_error exc_bind]. unfold float_exc.
  destruct (py_float (strip r1)) as [f|]; cbn [exc_bind]; [|right; reflexivity].
  unfold nar_stat_ok; cbn [fst snd]. split; [apply replace_space_no_space|]. split; [|exists f; reflexivity].
  apply replace_space_char; [reflexivity|reflexivity|].
  apply strip_char, Hx. discriminate.
Qed.

Lemma GetStats_NAR_aux_shape : forall lines acc,
  Forall nar_stat_ok acc -> exists st, GetStats_NAR_aux lines acc = Ok st /\ Forall nar_stat_ok st.
Proof.
  induction lines as [|line lines IH]; intros acc H; [exists acc; split; [reflexivity|exact H]|].
  cbn [GetStats_NAR_aux].
  destruct (contains ":" line && negb (startswith "//" line)); [|exact (IH acc H)].
  pose proof (stats_entry_NAR_shape line) as Hs.
  destruct (stats_entry_NAR line) as [[k v]|e].
  - apply IH. apply dict_set_Forall; assumption.
  - destruct Hs as [->| ->]; exact (IH acc H).
Qed.

Lemma stats_working_aux_keys : forall lines acc,
  Forall (fun kv => contains ":" (fst kv) = false) acc ->
  Forall (fun kv => contains ":" (fst kv) = false) (stats_working_aux lines acc).
Proof.
  induction lines as [|line lines IH]; intros acc H; [exact H|].
  cbn [stats_working_aux].
  destruct (contains ":" line && negb (startswith "//" line)); [|exact (IH acc H)].
  unfold py_split1. destruct (find_sub ":" line) as [i|] eqn:E; [|exact (IH acc H)].
  apply IH. apply dict_set_Forall; [|exact H].
  apply strip_char. exact (find_char_take ":" line i E).
Qed.

(** The stats parsers never fail and normalise their keys.  NAR.py's
    [GetStats] raises nothing whatever the lines (the [ValueError] and
    [IndexError] of a line are caught), its keys contain neither a space
    nor a colon and all its values are floats.  The keys of the
    NAR_working / NAR_native_threaded stats contain no colon. *)
Theorem stats_keys_normalised :
  (forall lines, exists st, GetStats_NAR lines = Ok st /\
     Forall (fun kv => contains " " (fst kv) = false /\ contains ":" (fst kv) = false /\
                       exists f, snd kv = PFloat f) st) /\
  (forall lines, Forall (fun kv => contains ":" (fst kv) = false) (stats_working lines)).
Proof.
  split.
  - intros lines. exact (GetStats_NAR_aux_shape lines [] (Forall_nil _)).
  - intros lines. exact (stats_working_aux_keys lines [] (Forall_nil _)).
Qed.

(* ------------------------------------------------------------------ *)
(** ** The last line of a key wins *)

Lemma append_empty_r : forall s, (s ++ "")%string = s.
Proof. induction s as [|c s IH]; [reflexivity|]. cbn [append]. rewrite IH. reflexivity. Qed.



Lemma length_append_str : forall a b,
  String.length (a ++ b) = (String.length a + String.length b)%nat.
Proof. induction a as [|c a IH]; intros b; [reflexivity|]. cbn [append String.length]. rewrite IH. reflexivity. Qed.

Lemma split_fuel_colon_value : forall k v tail,
  contains ":" k = false -> contains ":" v = false ->
  (tail = "" \/ exists rest, tail = ":" ++ rest) ->
  exists tl, py_split ":" (k ++ ":" ++ v ++ tail) = k :: v :: tl.
Proof.
  intros k v tail Hk Hv [->|(rest & ->)]; unfold py_split.
  - rewrite append_empty_r, (split_fuel_colon_step _ k _ Hk).
    assert (Hv' : find_sub ":" v = None)
      by (unfold contains in Hv; destruct (find_sub ":" v); [discriminate|reflexivity]).
    rewrite (split_fuel_none _ _ _ Hv'). eauto.
  - rewrite !length_append_str.
    replace (S (String.length k + (String.length ":" + (String.length v +
               (String.length ":" + String.length rest)))))
      with (S (S (String.length k + String.length v + S (String.length rest))))
      by (cbn [String.length]; lia).
    exact (split_fuel_colon_second _ k v rest Hk Hv).
Qed.




(* ------------------------------------------------------------------ *)
(** ** [parseReason] *)

Lemma append_assoc_str : forall a b c, ((a ++ b) ++ c)%string = (a ++ b ++ c)%string.
Proof. induction a as [|x a IH]; intros b c; [reflexivity|]. cbn [append]. rewrite IH. reflexivity. Qed.

Lemma lstrip_app : forall a b,
  lstrip (a ++ b) = if lstrip a =? "" then lstrip b else (lstrip a ++ b)%string.
Proof.
  induction a as [|c a IH]; intros b; [reflexivity|].
  cbn [append lstrip]. destruct (is_space c); [apply IH|reflexivity].
Qed.

Lemma rstrip_app : forall a b,
  rstrip (a ++ b) = if rstrip b =? "" then rstrip a else (a ++ rstrip b)%string.
Proof.
  induction a as [|c a IH]; intros b.
  - cbn [append rstrip]. destruct (String.eqb_spec (rstrip b) "") as [->|]; reflexivity.
  - cbn [append rstrip]. rewrite IH.
    destruct (String.eqb_spec (rstrip b) "") as [Hb|Hb]; [reflexivity|].
    replace ((a ++ rstrip b) =? "") with false; [reflexivity|].
    symmetry. apply String.eqb_neq. intros H. destruct a; [exact (Hb H)|discriminate].
Qed.

Lemma lstrip_idem : forall s, lstrip (lstrip s) = lstrip s.
Proof.
  induction s as [|c s IH]; [reflexivity|]. cbn [lstrip].
  destruct (is_space c) eqn:E; [exact IH|cbn [lstrip]; rewrite E; reflexivity].
Qed.

Lemma rstrip_idem : forall s, rstrip (rstrip s) = rstrip s.
Proof.
  induction s as [|c s IH]; [reflexivity|]. cbn [rstrip].
  destruct ((rstrip s =? "") && is_space c) eqn:E; [reflexivity|].
  cbn [rstrip]. rewrite IH, E. reflexivity.
Qed.

Lemma lstrip_rstrip_lstrip : forall s, lstrip (rstrip (lstrip s)) = rstrip (lstrip s).
Proof.
  induction s as [|c s IH]; [reflexivity|]. cbn [lstrip].
  destruct (is_space c) eqn:Ec; [exact IH|].
  cbn [rstrip]. destruct ((rstrip s =? "") && is_space c); [reflexivity|].
  cbn [lstrip]. rewrite Ec. reflexivity.
Qed.

Lemma strip_idem : forall s, strip (strip s) = strip s.
Proof. intros s. unfold strip. rewrite lstrip_rstrip_lstrip, rstrip_idem. reflexivity. Qed.

Lemma find_sub_none_cons : forall p c s, find_sub p (String c s) = None ->
  startswith p (String c s) = false /\ find_sub p s = None.
Proof.
  intros p c s H. cbn [find_sub] in H. destruct (startswith p (String c s)); [discriminate|].
  split; [reflexivity|]. destruct (find_sub p s); [discriminate|reflexivity].
Qed.

Lemma find_sub_lstrip : forall p s, find_sub p s = None -> find_sub p (lstrip s) = None.
Proof.
  intros p s. induction s as [|c s IH]; intros H; [exact H|]. cbn [lstrip].
  destruct (is_space c); [apply IH, (find_sub_none_cons p c s H)|exact H].
Qed.

Lemma startswith_app_r : forall p a b, startswith p a = true -> startswith p (a ++ b) = true.
Proof.
  induction p as [|c p IH]; intros a b H; [reflexivity|].
  destruct a as [|c' a]; [discriminate|]. cbn [startswith append] in *.
  apply andb_prop in H as [H1 H2]. rewrite H1, (IH a b H2). reflexivity.
Qed.

Lemma find_sub_app_none_l : forall p a b, find_sub p (a ++ b) = None -> find_sub p a = None.
Proof.
  intros p a b. induction a as [|c a IH]; intros H.
  - destruct p as [|c p]; [destruct b; discriminate|reflexivity].
  - cbn [append] in H. apply find_sub_none_cons in H as [H1 H2].
    cbn [find_sub]. destruct (startswith p (String c a)) eqn:E.
    + apply (startswith_app_r p _ b) in E. cbn [append] in E. rewrite E in H1. discriminate.
    + rewrite (IH H2). reflexivity.
Qed.

Lemma rstrip_prefix : forall s, exists r, s = (rstrip s ++ r)%string.
Proof.
  induction s as [|c s [r IH]]; [exists ""; reflexivity|]. cbn [rstrip].
  destruct ((rstrip s =? "") && is_space c); [exists (String c s); reflexivity|].
  exists r. cbn [append]. rewrite <- IH. reflexivity.
Qed.

Lemma find_sub_strip : forall p s, find_sub p s = None -> find_sub p (strip s) = None.
Proof.
  intros p s H. unfold strip. destruct (rstrip_prefix (lstrip s)) as [r Hr].
  apply (find_sub_app_none_l p _ r). rewrite <- Hr. apply find_sub_lstrip, H.
Qed.

Lemma startswith_app_char : forall p s x b,
  contains (String x "") p = false -> startswith p (s ++ String x b) = true ->
  startswith p s = true.
Proof.
  induction p as [|c p IH]; intros s x b Hx H; [reflexivity|].
  rewrite contains_char_cons in Hx. apply orb_false_elim in Hx as [Hx1 Hx2].
  destruct s as [|c' s]; cbn [append startswith] in H |- *.
  - apply andb_prop in H as [H _]. apply Ascii.eqb_eq in H. subst c.
    rewrite Ascii.eqb_refl in Hx1. discriminate.
  - apply andb_prop in H as [H1 H2]. rewrite H1. exact (IH s x b Hx2 H2).
Qed.

Lemma find_sub_skip : forall p x a b,
  contains (String x "") p = false -> find_sub p a = None ->
  find_sub p (a ++ String x b) = option_map (fun i => S (String.length a + i)) (find_sub p b).
Proof.
  intros p x a b Hx. induction a as [|c a IH]; intros H.
  - cbn [append find_sub]. destruct (startswith p (String x b)) eqn:E.
    + apply (startswith_app_char p "" x b Hx) in E.
      destruct p; [discriminate|discriminate].
    + destruct (find_sub p b); reflexivity.
  - apply find_sub_none_cons in H as [H1 H2].
    cbn [append find_sub]. destruct (startswith p (String c (a ++ String x b))) eqn:E.
    + apply (startswith_app_char p (String c a) x b Hx) in E. rewrite E in H1. discriminate.
    + rewrite (IH H2). destruct (find_sub p b); reflexivity.
Qed.

Lemma split_ws_aux_token : forall d cur, no_space d = true ->
  split_ws_aux d cur = if (cur ++ d) =? "" then [] else [(cur ++ d)%string].
Proof.
  induction d as [|c d IH]; intros cur H.
  - rewrite append_empty_r. reflexivity.
  - unfold no_space in H. cbn [list_ascii_of_string forallb] in H.
    apply andb_prop in H as [H1 H2]. apply negb_true_iff in H1.
    cbn [split_ws_aux]. rewrite H1, (IH _ H2), append_assoc_str. reflexivity.
Qed.

Lemma split_ws_token : forall d, no_space d = true -> d <> "" -> split_ws d = [d].
Proof.
  intros d H Hd. unfold split_ws. rewrite (split_ws_aux_token d "" H).
  cbn [append]. apply String.eqb_neq in Hd. rewrite Hd. reflexivity.
Qed.

Lemma rstrip_token : forall d, no_space d = true -> rstrip d = d.
Proof.
  induction d as [|c d IH]; intros H; [reflexivity|].
  unfold no_space in H. cbn [list_ascii_of_string forallb] in H.
  apply andb_prop in H as [H1 H2]. apply negb_true_iff in H1.
  cbn [rstrip]. rewrite H1, andb_false_r, (IH H2). reflexivity.
Qed.

Lemma parseReason_skip : forall pre ls,
  Forall (fun l => contains "^decide:" l = false) pre -> parseReason (pre ++ ls) = parseReason ls.
Proof. intros pre ls. induction 1 as [|l pre Hl _ IH]; [reflexivity|]. cbn [app parseReason]. rewrite Hl. exact IH. Qed.

Lemma find_none_of_contains : forall p s, contains p s = false -> find_sub p s = None.
Proof. intros p s H. unfold contains in H. destruct (find_sub p s); [discriminate|reflexivity]. Qed.

Lemma startswith_self_app : forall p s, startswith p (p ++ s) = true.
Proof. induction p as [|c p IH]; intros s; [reflexivity|]. cbn [append startswith]. rewrite Ascii.eqb_refl. apply IH. Qed.

Lemma take_app_len_add : forall k r n, take (String.length k + n) (k ++ r) = (k ++ take n r)%string.
Proof. induction k as [|c k IH]; intros r n; [reflexivity|]. cbn [append String.length Nat.add take]. rewrite IH. reflexivity. Qed.

(** [s.split(sep)] on a line that starts with [sep] and has no other [sep]. *)
Lemma py_split_prefix : forall sep body,
  find_sub sep body = None -> py_split sep (sep ++ body) = [""; body].
Proof.
  intros sep body H. unfold py_split. cbn [split_fuel].
  rewrite (prefix_find_sub sep _ (startswith_self_app sep body)).
  replace (0 + String.length sep)%nat with (String.length sep + 0)%nat by lia.
  rewrite drop_app_len. cbn [drop]. rewrite (split_fuel_none _ _ _ H).
  destruct sep; reflexivity.
Qed.

(** [s.split(sep)] at an occurrence of [sep] after a space. *)
Lemma py_split_after_space : forall sep a d,
  contains " " sep = false -> find_sub sep a = None -> find_sub sep d = None ->
  py_split sep (a ++ " " ++ sep ++ d) = [(a ++ " ")%string; d].
Proof.
  intros sep a d Hs Ha Hd. unfold py_split. cbn [split_fuel].
  change (" " ++ sep ++ d)%string with (String " " (sep ++ d)).
  rewrite (find_sub_skip sep " " a _ Hs Ha).
  rewrite (prefix_find_sub sep _ (startswith_self_app sep d)). cbn [option_map].
  replace (S (String.length a + 0)) with (String.length a + 1)%nat by lia.
  rewrite take_app_len_add.
  replace (String.length a + 1 + String.length sep)%nat
    with (String.length a + (1 + String.length sep))%nat by lia.
  rewrite drop_app_len. cbn [take drop Nat.add].
  replace (drop (String.length sep) (sep ++ d)) with d
    by (rewrite <- (Nat.add_0_r (String.length sep)), drop_app_len; reflexivity).
  rewrite (split_fuel_none _ _ _ Hd). reflexivity.
Qed.

Lemma contains_self_app : forall p s, contains p (p ++ s) = true.
Proof. intros p s. unfold contains. rewrite (prefix_find_sub p _ (startswith_self_app p s)). reflexivity. Qed.

Lemma contains_strip : forall p s, contains p s = false -> contains p (strip s) = false.
Proof.
  intros p s H. unfold contains. rewrite (find_sub_strip p s (find_none_of_contains p s H)).
  reflexivity.
Qed.



(* ------------------------------------------------------------------ *)
(** ** Derived and revised lines *)

Lemma after_sep_colon : forall k v tail,
  contains ":" k = false -> contains ":" v = false ->
  (tail = "" \/ exists rest, tail = ":" ++ rest) ->
  after_sep ":" (k ++ ":" ++ v ++ tail) = Ok (strip v).
Proof.
  intros k v tail Hk Hv Ht. unfold after_sep.
  destruct (split_fuel_colon_value k v tail Hk Hv Ht) as (tl & ->). reflexivity.
Qed.

(** In NAR.py's [GetOutput], a ["Derived:"] or ["Revised:"] line that is
    not JSON yields one derivation whose term is the text between the first
    and the second colon of the line, trimmed: whatever follows a second
    colon (a [":|:"] tense marker, a ["Truth:"] field) is cut off, and what
    precedes it stays in the term. *)
Theorem derived_term_up_to_colon : forall (dec : string -> exc pyval) tag v tail,
  (tag = "Derived" \/ tag = "Revised") -> contains ":" v = false ->
  (tail = "" \/ exists rest, tail = ":" ++ rest) ->
  classify_line dec (tag ++ ":" ++ v ++ tail) = Ok [(RDerivation, text_task (strip v))].
Proof.
  intros dec tag v tail Htag Hv Ht.
  unfold classify_line, json_part, text_part.
  destruct Htag as [-> | ->]; cbn [startswith append orb andb Ascii.eqb Bool.eqb exc_bind].
  - change (String "D" (String "e" (String "r" (String "i" (String "v" (String "e" (String "d"
              (String ":" (v ++ tail)))))))))
      with ("Derived" ++ ":" ++ v ++ tail).
    rewrite (after_sep_colon "Derived" v tail eq_refl Hv Ht). reflexivity.
  - change (String "R" (String "e" (String "v" (String "i" (String "s" (String "e" (String "d"
              (String ":" (v ++ tail)))))))))
      with ("Revised" ++ ":" ++ v ++ tail).
    rewrite (after_sep_colon "Revised" v tail eq_refl Hv Ht). reflexivity.
Qed.

Lemma derived_term_up_to_colon_witness :
  classify_line (fun _ => Raise JSONDecodeError) ("Derived" ++ ":" ++ " <a --> b>. " ++ ":|: occurrenceTime=5")
    = Ok [(RDerivation, text_task (strip " <a --> b>. "))] /\
  classify_line (fun _ => Raise JSONDecodeError) ("Revised" ++ ":" ++ " <a --> b>. Truth" ++ ": frequency=1.0, confidence=0.9")
    = Ok [(RDerivation, text_task (strip " <a --> b>. Truth"))].
Proof.
  split.
  - apply derived_term_up_to_colon; [left; reflexivity|reflexivity|right; exists "|: occurrenceTime=5"; reflexivity].
  - apply derived_term_up_to_colon; [right; reflexivity|reflexivity|].
    right. exists " frequency=1.0, confidence=0.9". reflexivity.
Defined.

(* ------------------------------------------------------------------ *)
(** ** [PrintedTask] on parsed tasks *)

(** NAR.py's [PrintedTask] on the tasks [GetOutput] builds: a task read
    from a text line always prints as its term followed by ".".  On a task
    [parseTask] built from a decoded JSON record, it raises only
    [TypeError], and exactly when the record's "term" is present and not a
    string, or its "truth" is present and not an object; otherwise it
    returns a string. *)
Theorem printed_task_errors :
  (forall s, PrintedTask (text_task s) = Ok (s ++ ".")) /\
  forall d,
  match PrintedTask (parseTask (PDict d)) with
  | Ok _ => (exists t, get_or "term" d (PStr "") = PStr t) /\
            (forall tr, dict_get "truth" d = Some tr -> exists td, tr = PDict td)
  | Raise e => e = TypeError /\
               ((forall t, get_or "term" d (PStr "") <> PStr t) \/
                exists tr, dict_get "truth" d = Some tr /\ forall td, tr <> PDict td)
  end.
Proof.
  split; [intros s; reflexivity|].
  intros d. unfold parseTask.
  set (o := py_str (get_or "occurrence-time" d (PStr "eternal"))).
  set (pn := if py_eq_str (get_or "type" d (PStr "belief")) "goal" then "!"
             else if py_eq_str (get_or "type" d (PStr "belief")) "question" then "?" else ".").
  destruct (get_or "term" d (PStr "")) eqn:Et;
  destruct (dict_get "truth" d) as [tr|] eqn:Etr; try destruct tr;
  destruct (dict_get "priority" d) eqn:Ep; cbn.
  all: try (split; [reflexivity|left; intros ? ?; discriminate]).
  all: destruct (o =? "eternal"); [|destruct (o =? "now"); [|destruct (isdigit o)]]; cbn.
  all: first
    [ split; [reflexivity|right; eexists; split; [reflexivity|intros ? ?; discriminate]]
    | split; [eexists; reflexivity|intros tr Htr; injection Htr as <-; eexists; reflexivity]
    | split; [eexists; reflexivity|intros tr Htr; discriminate] ].
Qed.

Lemma to_uint_not_nil : forall m, N.to_uint m <> Decimal.Nil.
Proof.
  intros m H. pose proof (DecimalN.Unsigned.of_to m) as E. rewrite H in E.
  destruct m; [discriminate H|discriminate E].
Qed.

Lemma isdigit_N_digits : forall m, isdigit (N_digits m) = true.
Proof.
  intros m. unfold N_digits. pose proof (to_uint_not_nil m) as Hn.
  induction (N.to_uint m) as [| u IH | u IH | u IH | u IH | u IH | u IH | u IH | u IH | u IH | u IH];
    [contradiction|..];
    unfold isdigit in *; cbn [NilEmpty.string_of_uint list_ascii_of_string forallb String.eqb negb andb];
    (destruct u; [reflexivity|apply IH; discriminate..]).
Qed.

Lemma Z_str_nonneg : forall n, (0 <= n)%Z -> Z_str n = N_digits (Z.to_N n).
Proof. intros n H. unfold Z_str. destruct (Z.ltb_spec n 0); [lia|reflexivity]. Qed.

Lemma isdigit_neq : forall s s', isdigit s = true -> isdigit s' = false -> (s =? s') = false.
Proof. intros s s' H H'. apply String.eqb_neq. intros ->. rewrite H in H'. discriminate. Qed.


(* ------------------------------------------------------------------ *)
(** ** How the adapters sort a response *)

Lemma caret_not_tagged : forall l, startswith "^" l = true ->
  startswith "Derived:" l = false /\ startswith "Answer:" l = false.
Proof.
  intros [|c l] H; [discriminate|]. cbn [startswith] in H. rewrite andb_true_r in H.
  apply Ascii.eqb_eq in H as <-. split; reflexivity.
Qed.

Lemma derived_not_answer : forall l, startswith "Derived:" l = true -> startswith "Answer:" l = false.
Proof.
  intros [|c l] H; [discriminate|]. cbn [startswith] in H |- *.
  apply andb_prop in H as [H _]. apply Ascii.eqb_eq in H as <-. reflexivity.
Qed.

Lemma threaded_result_loop_filters : forall lines r,
  threaded_result_loop lines r =
  mkAR (ar_output r)
       (ar_executions r ++ filter (startswith "^") lines)
       (ar_derivations r ++ map (fun l => strip (drop 8 l)) (filter (startswith "Derived:") lines))
       (ar_answers r ++ map (fun l => strip (drop 7 l)) (filter (startswith "Answer:") lines)).
Proof.
  induction lines as [|line lines IH]; intros [o e dv a].
  - cbn. rewrite !app_nil_r. reflexivity.
  - cbn [threaded_result_loop filter].
    destruct (startswith "^" line) eqn:E1.
    + destruct (caret_not_tagged line E1) as [-> ->].
      rewrite IH. cbn. rewrite <- !app_assoc. reflexivity.
    + destruct (startswith "Derived:" line) eqn:E2.
      * rewrite (derived_not_answer line E2).
        rewrite IH. cbn. rewrite <- !app_assoc. reflexivity.
      * destruct (startswith "Answer:" line) eqn:E3;
          rewrite IH; cbn; rewrite <- ?app_assoc; reflexivity.
Qed.


(** How the two adapters sort the lines of a response.  The [if]/[elif]
    loop of NAR_native_threaded.py's [AddInput] acts as three independent
    filters, in the order of the lines: executions are the lines starting
    with "^", derivations the lines starting with "Derived:" less that
    prefix and trimmed, answers the lines starting with "Answer:" likewise.
    NAR_working.py's [add_input] gives the same executions, and the same
    derivations and answers when each such line has one space after the
    colon and trimmed text; without that space it cuts one more character
    ("Derived:x" gives "" instead of "x"). *)
Theorem adapters_parse_alike :
  (forall output, add_input_result_threaded output =
     mkAR output (filter (startswith "^") output)
          (map (fun l => strip (drop 8 l)) (filter (startswith "Derived:") output))
          (map (fun l => strip (drop 7 l)) (filter (startswith "Answer:") output))) /\
  (forall output, ar_executions (add_input_result_working output) =
                  ar_executions (add_input_result_threaded output)) /\
  (forall output, (forall l, In l output -> startswith "Derived:" l = true ->
                     exists x, l = "Derived: " ++ x /\ strip x = x) ->
     ar_derivations (add_input_result_working output) =
     ar_derivations (add_input_result_threaded output)) /\
  (forall output, (forall l, In l output -> startswith "Answer:" l = true ->
                     exists x, l = "Answer: " ++ x /\ strip x = x) ->
     ar_answers (add_input_result_working output) =
     ar_answers (add_input_result_threaded output)) /\
  (forall c x,
     ar_derivations (add_input_result_working ["Derived:" ++ String c x]) = [x] /\
     ar_derivations (add_input_result_threaded ["Derived:" ++ String c x]) = [strip (String c x)]).
Proof.
  assert (Hf : forall output, add_input_result_threaded output =
     mkAR output (filter (startswith "^") output)
          (map (fun l => strip (drop 8 l)) (filter (startswith "Derived:") output))
          (map (fun l => strip (drop 7 l)) (filter (startswith "Answer:") output)))
    by (intros output; exact (threaded_result_loop_filters output (mkAR output [] [] []))).
  split; [exact Hf|]. split; [|split; [|split]].
  - intros output. rewrite Hf. reflexivity.
  - intros output H. rewrite Hf. cbn [ar_derivations add_input_result_working].
    apply map_ext_in. intros l Hl. apply filter_In in Hl as [Hin Hs].
    destruct (H l Hin Hs) as (x & -> & Hx). cbn [drop append]. symmetry. exact Hx.
  - intros output H. rewrite Hf. cbn [ar_answers add_input_result_working].
    apply map_ext_in. intros l Hl. apply filter_In in Hl as [Hin Hs].
    destruct (H l Hin Hs) as (x & -> & Hx). cbn [drop append]. symmetry. exact Hx.
  - intros c x. rewrite Hf. split; reflexivity.
Qed.

Lemma adapters_parse_alike_witness :
  let out := ["Derived: <a --> b>."; "^left executed"; "Answer: <a --> b>. :|:"; "//*stats"] in
  ar_derivations (add_input_result_working out) = ar_derivations (add_input_result_threaded out) /\
  ar_answers (add_input_result_working out) = ar_answers (add_input_result_threaded out).
Proof.
  intros out. destruct adapters_parse_alike as (_ & _ & Hd & Ha & _). split.
  - apply Hd. intros l Hl Hs. destruct Hl as [<-|[<-|[<-|[<-|[]]]]]; try discriminate Hs.
    exists "<a --> b>.". split; reflexivity.
  - apply Ha. intros l Hl Hs. destruct Hl as [<-|[<-|[<-|[<-|[]]]]]; try discriminate Hs.
    exists "<a --> b>. :|:". split; reflexivity.
Defined.

(* ------------------------------------------------------------------ *)
(** ** What NAR.py's [AddInput] reads *)

Lemma raw_read_loop_consumes : forall out res rd rest,
  raw_read_loop out = (res, (rd, rest)) ->
  out = (rd ++ rest)%list \/ (rd = (out ++ [""])%list /\ rest = []).
Proof.
  induction out as [|raw out IH]; intros res rd rest H.
  - injection H as _ <- <-. right. split; reflexivity.
  - cbn [raw_read_loop] in H.
    destruct (raw =? "") eqn:E; [injection H as _ <- <-; left; reflexivity|].
    destruct (contains "done with" (strip raw) && contains "additional inference steps" (strip raw));
      [injection H as _ <- <-; left; reflexivity|].
    destruct (contains "operation result product expected" (lower (strip raw)));
      [injection H as _ <- <-; left; reflexivity|].
    destruct (raw_read_loop out) as [[ls fl] [rd' rest']] eqn:Er.
    injection H as _ <- <-.
    destruct (IH _ _ _ eq_refl) as [->|[-> ->]]; [left|right]; split || reflexivity; reflexivity.
Qed.


(* ------------------------------------------------------------------ *)
(** ** The exceptions of NAR.py's [GetOutput] *)

Lemma take_drop_str : forall n s, (take n s ++ drop n s)%string = s.
Proof. induction n as [|n IH]; intros [|c s]; cbn [take drop append]; try reflexivity. rewrite IH. reflexivity. Qed.

Lemma find_sub_app_none_r : forall p a b, find_sub p (a ++ b) = None -> find_sub p b = None.
Proof.
  intros p a b. induction a as [|c a IH]; intros H; [exact H|].
  cbn [append] in H. apply find_sub_none_cons in H as [_ H]. exact (IH H).
Qed.

Lemma contains_prefix : forall p x n, contains p (take n x) = true -> contains p x = true.
Proof.
  intros p x n H. unfold contains in *.
  destruct (find_sub p x) eqn:E; [reflexivity|].
  rewrite <- (take_drop_str n x) in E. rewrite (find_sub_app_none_l _ _ _ E) in H. discriminate.
Qed.

Lemma contains_suffix : forall p x n, contains p (drop n x) = true -> contains p x = true.
Proof.
  intros p x n H. unfold contains in *.
  destruct (find_sub p x) eqn:E; [reflexivity|].
  rewrite <- (take_drop_str n x) in E. rewrite (find_sub_app_none_r _ _ _ E) in H. discriminate.
Qed.

Lemma contains_strip_true : forall p s, contains p (strip s) = true -> contains p s = true.
Proof.
  intros p s H. destruct (contains p s) eqn:E; [reflexivity|].
  rewrite (contains_strip p s E) in H. discriminate.
Qed.

Lemma split_fuel_head_prefix : forall f sep x y ys,
  split_fuel f sep x = y :: ys -> exists n, y = take n x \/ y = x.
Proof.
  intros [|f] sep x y ys H; cbn [split_fuel] in H.
  - injection H as <- _. exists 0. right. reflexivity.
  - destruct (find_sub sep x) as [i|]; injection H as <- _;
      [exists i; left; reflexivity|exists 0; right; reflexivity].
Qed.

(** A [contains] test on [s.split(sep)[1]] carries over to [s]. *)
Lemma contains_second_piece : forall p sep s b,
  nth_exc 1 (py_split sep s) = Ok b -> contains p b = true -> contains p s = true.
Proof.
  intros p sep s b H Hb. unfold nth_exc, py_split in H. cbn [split_fuel] in H.
  destruct (find_sub sep s) as [i|]; [|discriminate].
  cbn [nth_error] in H.
  destruct (split_fuel (String.length s) sep (drop (i + String.length sep) s)) as [|y ys] eqn:E;
    [discriminate|].
  injection H as ->. destruct (split_fuel_head_prefix _ _ _ _ _ E) as [n [->| ->]].
  - exact (contains_suffix _ _ _ (contains_prefix _ _ _ Hb)).
  - exact (contains_suffix _ _ _ Hb).
Qed.

Lemma nth_exc_found : forall sep s,
  contains sep s = true -> exists b, nth_exc 1 (py_split sep s) = Ok b.
Proof.
  intros sep s H. unfold contains in H. destruct (find_sub sep s) as [i|] eqn:E; [|discriminate].
  destruct (py_split_found sep s i E) as (b & rest & ->). exists b. reflexivity.
Qed.

Lemma desire_of_errors : forall s e, desire_of s = Raise e -> e = IndexError \/ e = ValueError.
Proof.
  intros s e. unfold desire_of, nth_exc, float_exc.
  destruct (nth_error (py_split "desire=" s) 1) as [seg|]; cbn [exc_bind];
    [|intros H; injection H as <-; auto].
  destruct (nth_error (split_ws seg) 0) as [tok|]; cbn [exc_bind];
    [|intros H; injection H as <-; auto].
  destruct (py_float tok); [discriminate|intros H; injection H as <-; auto].
Qed.

Lemma parseExecution_str_errors : forall line e, parseExecution_str line = Raise e ->
  (e = IndexError \/ e = ValueError) /\ contains "desire=" line = true.
Proof.
  intros line e. unfold parseExecution_str.
  destruct (contains "^executed:" line) eqn:Ec; [|discriminate].
  destruct (nth_exc_found _ _ Ec) as [b ->]. cbn [exc_bind].
  destruct (contains "desire=" line) eqn:Ed; [|discriminate].
  destruct (desire_of line) eqn:Eo; cbn [exc_bind]; [discriminate|].
  intros H. injection H as <-. split; [exact (desire_of_errors _ _ Eo)|reflexivity].
Qed.

Lemma after_sep_tag : forall tag line, contains ":" tag = false ->
  startswith (tag ++ ":") line = true -> exists t, after_sep ":" line = Ok t.
Proof.
  intros tag line Ht H. destruct (prefix_app _ _ H) as [r ->].
  rewrite append_assoc_str. exact (after_sep_found ":" _ _ (find_sub_colon tag r Ht)).
Qed.

Lemma text_part_errors : forall line e, text_part line = Raise e ->
  (e = IndexError \/ e = ValueError) /\ contains "desire=" line = true.
Proof.
  intros line e. unfold text_part.
  destruct (startswith "^executed:" line).
  { destruct (parseExecution_str line) eqn:Ep; cbn [exc_bind]; [discriminate|].
    intros H. injection H as <-. exact (parseExecution_str_errors _ _ Ep). }
  destruct (startswith "Input:" line) eqn:E2.
  { destruct (after_sep_prefix _ _ E2) as [t ->]. discriminate. }
  destruct (startswith "Derived:" line || startswith "Revised:" line) eqn:E3.
  { apply orb_true_iff in E3 as [E3|E3];
      [destruct (after_sep_tag "Derived" line eq_refl E3) as [t ->]
      |destruct (after_sep_tag "Revised" line eq_refl E3) as [t ->]]; discriminate. }
  destruct (startswith "Answer:" line) eqn:E5.
  { destruct (after_sep_prefix _ _ E5) as [t ->]. discriminate. }
  destruct (startswith "Selected:" line) eqn:E6.
  { destruct (after_sep_prefix _ _ E6) as [t ->]. discriminate. }
  discriminate.
Qed.

Lemma json_part_errors : forall dec line e, json_part dec line = Raise e ->
  dec line = Raise e /\ e <> JSONDecodeError.
Proof.
  intros dec line e. unfold json_part.
  destruct (startswith "{" line || startswith "[" line); [|discriminate].
  destruct (dec line) as [v|e'].
  - destruct v; try discriminate.
    destruct (has_key "operation" d); [discriminate|].
    destruct (has_key "term" d); [|discriminate].
    destruct (py_truthy (parseTask (PDict d))); discriminate.
  - destruct e'; try discriminate; intros H; injection H as <-; split; (reflexivity || discriminate).
Qed.

Lemma classify_all_errors : forall dec lines e, classify_all dec lines = Raise e ->
  exists l, In l lines /\ classify_line dec l = Raise e.
Proof.
  intros dec lines e. induction lines as [|l lines IH]; [discriminate|].
  cbn [classify_all]. destruct (classify_line dec l) eqn:E1; cbn [exc_bind].
  - destruct (classify_all dec lines); cbn [exc_bind]; [discriminate|].
    intros H. destruct (IH H) as (l' & Hin & Hl). exists l'. split; [right; exact Hin|exact Hl].
  - intros H. injection H as <-. exists l. split; [left; reflexivity|exact E1].
Qed.

Lemma parseReason_errors : forall lines e, parseReason lines = Raise e ->
  (e = IndexError \/ e = ValueError) /\ exists l, In l lines /\ contains "desire=" l = true.
Proof.
  induction lines as [|line lines IH]; intros e; [discriminate|].
  cbn [parseReason]. destruct (contains "^decide:" line) eqn:Ec.
  - destruct (nth_exc_found _ _ Ec) as [seg Hs]. rewrite Hs. cbn [exc_bind].
    destruct (contains "desire=" (strip seg)) eqn:Ed.
    + destruct (desire_of (strip seg)) eqn:Eo; cbn [exc_bind].
      * destruct (split_fuel_nonempty (S (String.length (strip seg))) "desire=" (strip seg))
          as (x & xs & Ex).
        unfold py_split. rewrite Ex. discriminate.
      * intros H. injection H as <-. split; [exact (desire_of_errors _ _ Eo)|].
        exists line. split; [left; reflexivity|].
        exact (contains_second_piece _ _ _ _ Hs (contains_strip_true _ _ Ed)).
    + cbn [exc_bind].
      destruct (split_fuel_nonempty (S (String.length (strip seg))) "desire=" (strip seg))
        as (x & xs & Ex).
      unfold py_split. rewrite Ex. discriminate.
  - intros H. destruct (IH e H) as [He (l & Hin & Hl)].
    split; [exact He|]. exists l. split; [right; exact Hin|exact Hl].
Qed.


Lemma queue_get_empty_later : forall it r t t',
  queue_get (it :: r) t = Empty t' -> (t' < arrival it)%Z.
Proof.
  intros it r t t' H. cbn [queue_get] in H.
  destruct (Z.leb_spec (arrival it) t); [discriminate|].
  destruct (Z.leb_spec (arrival it) (t + poll)); [discriminate|].
  injection H as <-. lia.
Qed.

Lemma welcome_run_facts : forall fuel deadline t q, (List.length q < fuel)%nat ->
  exists consumed t' rest, welcome_run fuel deadline t q = Some (t', rest) /\
    q = (consumed ++ rest)%list /\ (t <= t')%Z /\
    Forall (fun it => (arrival it <= t')%Z) consumed /\
    (forall it rest', rest = it :: rest' -> (deadline <= t')%Z \/ (t' < arrival it)%Z).
Proof.
  induction fuel as [|f IH]; intros deadline t q Hf; [lia|].
  cbn [welcome_run]. destruct (Z.ltb_spec t deadline) as [Ht|Ht].
  - destruct (queue_get q t) as [it t1 rest|t1] eqn:Eq.
    + destruct (queue_get_got _ _ _ _ _ Eq) as (-> & H1 & H2 & _).
      cbn [List.length] in Hf.
      destruct (IH deadline t1 rest ltac:(lia)) as (c & t' & rest' & Hr & Hc & Ht' & Ha & Hn).
      exists (it :: c), t', rest'. split; [exact Hr|]. split; [rewrite Hc; reflexivity|].
      split; [lia|]. split; [constructor; [lia|exact Ha]|exact Hn].
    + exists [], t1, q. split; [reflexivity|]. split; [reflexivity|].
      pose proof (queue_get_empty _ _ _ Eq) as He. unfold poll in He.
      split; [lia|]. split; [constructor|].
      intros it rest' ->. right. exact (queue_get_empty_later _ _ _ _ Eq).
  - exists [], t, q. split; [reflexivity|]. split; [reflexivity|]. split; [lia|].
    split; [constructor|]. intros. left. lia.
Qed.

(** The welcome-message loop of the threaded spawnNAR drops a prefix of the
    output queue and always finishes: every dropped line had arrived by the
    time the loop stopped, and the first line left in the queue (for the
    first AddInput to read) arrived after that time, unless the 0.5 s
    deadline had passed. *)
Theorem spawn_welcome_consumes : forall q t0,
  exists consumed t rest, spawn_welcome_threaded q t0 = Some (t, rest) /\
    q = (consumed ++ rest)%list /\ (t0 <= t)%Z /\
    Forall (fun it => (arrival it <= t)%Z) consumed /\
    (forall it rest', rest = it :: rest' -> (t0 + 500 <= t)%Z \/ (t < arrival it)%Z).
Proof. intros q t0. apply welcome_run_facts. lia. Qed.

(* ------------------------------------------------------------------ *)
(** ** The pipes: what NAR.py's [AddInput] writes and reads *)

Lemma io_bind_run : forall A B (m : io A) (k : A -> io B) st,
  io_bind m k st = match m st with
                   | (Ok a, st1) => k a st1
                   | (Raise e, st1) => (Raise e, st1)
                   end.
Proof. intros. unfold io_bind. destruct (m st) as [[a|e] st1]; reflexivity. Qed.

Lemma write_line_cases : forall s st,
  (io_writable st = 0%nat /\ write_line s st = (Raise BrokenPipeError, st)) \/
  exists n, io_writable st = S n /\
    write_line s st = (Ok tt, mkIO (io_stdout st) (io_log st ++ [EvWrite s])%list n).
Proof.
  intros s st. unfold write_line. destruct (io_writable st) as [|n]; [left|right; exists n]; auto.
Qed.

Lemma rpw_refl : forall st, reads_prefix_after_writes st st.
Proof. intros st. exists [], []. rewrite !app_nil_r. split; [reflexivity|left; reflexivity]. Qed.

Lemma rpw_write : forall s st st2,
  reads_prefix_after_writes (snd (write_line s st)) st2 -> reads_prefix_after_writes st st2.
Proof.
  intros s st st2 H. destruct (write_line_cases s st) as [[_ E]|(n & _ & E)]; rewrite E in H; [exact H|].
  destruct H as (ws & rd & Hl & Hc). exists (s :: ws), rd. cbn [io_log io_stdout snd] in *.
  rewrite Hl, <- !app_assoc. split; [reflexivity|exact Hc].
Qed.

Lemma rpw_read : forall st, reads_prefix_after_writes st (snd (read_loop_io st)).
Proof.
  intros st. unfold read_loop_io.
  destruct (raw_read_loop (io_stdout st)) as [res [rd rest]] eqn:Er.
  apply raw_read_loop_consumes in Er. exists [], rd. cbn. split; [reflexivity|exact Er].
Qed.

Lemma GetRawOutput_NAR_consumes : forall sz st,
  reads_prefix_after_writes st (snd (GetRawOutput_NAR sz st)).
Proof.
  intros [|] st; unfold GetRawOutput_NAR; rewrite io_bind_run.
  - pose proof (rpw_write "0" st) as W.
    destruct (write_line "0" st) as [[u|e] st1] eqn:E; apply W; [apply rpw_read|apply rpw_refl].
  - apply rpw_read.
Qed.

(** X13.  NAR.py's [AddInput] (through [GetOutput] or [GetStats] and [GetRawOutput]) reads a prefix of the engine's stdout and leaves the rest unread for the next call; the values it read follow its writes in the log, in order.  Only at the end of the stream does it read one more value, the empty string, and then nothing is left. *)
Theorem addinput_reads_prefix : forall dec cmd st,
  let st' := snd (AddInput_NAR dec cmd st) in
  exists ws rd,
    io_log st' = (io_log st ++ map EvWrite ws ++ map EvRead rd)%list /\
    (io_stdout st = (rd ++ io_stdout st')%list \/
     (rd = (io_stdout st ++ [""])%list /\ io_stdout st' = [])).
Proof.
  intros dec cmd st st'. subst st'. fold (reads_prefix_after_writes st (snd (AddInput_NAR dec cmd st))).
  unfold AddInput_NAR. rewrite io_bind_run.
  pose proof (rpw_write cmd st) as W.
  destruct (write_line cmd st) as [[u|e] st1] eqn:E; apply W; cbn [snd]; [|apply rpw_refl].
  destruct (cmd =? "*stats").
  - unfold GetStats_NAR_io. rewrite io_bind_run, io_bind_run.
    pose proof (rpw_write "*stats" st1) as W2.
    destruct (write_line "*stats" st1) as [[u2|e2] st2] eqn:E2; apply W2; cbn [snd]; [|apply rpw_refl].
    rewrite io_bind_run.
    pose proof (GetRawOutput_NAR_consumes true st2) as G.
    destruct (GetRawOutput_NAR true st2) as [[r|e3] st3]; cbn [snd] in *; [|exact G].
    unfold io_lift, io_ret. destruct (GetStats_NAR (fst r)); exact G.
  - rewrite io_bind_run. unfold GetOutput_NAR. rewrite io_bind_run.
    pose proof (GetRawOutput_NAR_consumes true st1) as G.
    destruct (GetRawOutput_NAR true st1) as [[r|e3] st3]; cbn [snd] in *; [|exact G].
    unfold io_lift, io_ret. destruct (GetOutput_of dec (fst r) (snd r)); exact G.
Qed.




(** The exceptions [GetOutput]'s parsing can raise on the lines
    [GetRawOutput] returned. *)
Lemma GetOutput_of_exceptions : forall dec lines flag e,
  GetOutput_of dec lines flag = Raise e ->
  (exists l, In l lines /\ dec l = Raise e /\ e <> JSONDecodeError) \/
  ((e = IndexError \/ e = ValueError) /\ exists l, In l lines /\ contains "desire=" l = true).
Proof.
  intros dec lines flag e. unfold GetOutput_of.
  destruct (classify_all dec lines) as [evs|e'] eqn:Ec; cbn [exc_bind].
  - destruct (parseReason lines) eqn:Er; cbn [exc_bind]; [discriminate|].
    intros H. injection H as <-. right. exact (parseReason_errors _ _ Er).
  - intros H. injection H as <-.
    destruct (classify_all_errors _ _ _ Ec) as (l & Hin & Hl).
    unfold classify_line in Hl.
    destruct (json_part dec l) eqn:Ej; cbn [exc_bind] in Hl.
    + destruct (text_part l) eqn:Et; cbn [exc_bind] in Hl; [discriminate|].
      injection Hl as <-. destruct (text_part_errors _ _ Et) as [He Hd].
      right. split; [exact He|]. exists l. split; assumption.
    + injection Hl as <-. destruct (json_part_errors _ _ _ Ej) as [Hd Hn].
      left. exists l. split; [exact Hin|]. split; assumption.
Qed.

(** X14.  The exceptions NAR.py's [GetOutput] can raise: [BrokenPipeError]
    from writing "0" in [GetRawOutput] when the engine has exited (nothing is
    then read); or, on the lines read, an exception of [json.loads] other
    than [JSONDecodeError] on some line, or an [IndexError] or [ValueError]
    from reading a "desire=" value, and then some line contains "desire=". *)
Theorem GetOutput_exceptions : forall dec st e,
  fst (GetOutput_NAR dec st) = Raise e ->
  (e = BrokenPipeError /\ io_writable st = 0%nat /\ snd (GetOutput_NAR dec st) = st) \/
  exists lines flag st',
    GetRawOutput_NAR true st = (Ok (lines, flag), st') /\
    snd (GetOutput_NAR dec st) = st' /\
    ((exists l, In l lines /\ dec l = Raise e /\ e <> JSONDecodeError) \/
     ((e = IndexError \/ e = ValueError) /\
      exists l, In l lines /\ contains "desire=" l = true)).
Proof.
  intros dec st e. unfold GetOutput_NAR. rewrite io_bind_run.
  destruct (GetRawOutput_NAR true st) as [[[lines flag]|e'] st'] eqn:Eg.
  - unfold io_lift. cbn [fst snd]. intros H. right. exists lines, flag, st'.
    split; [reflexivity|]. split; [reflexivity|]. exact (GetOutput_of_exceptions _ _ _ _ H).
  - cbn [fst snd]. intros H. injection H as <-. left.
    unfold GetRawOutput_NAR in Eg. rewrite io_bind_run in Eg.
    destruct (write_line_cases "0" st) as [[Hw Ew]|(n & Hw & Ew)]; rewrite Ew in Eg.
    + injection Eg as <- <-. auto.
    + unfold read_loop_io in Eg. destruct (raw_read_loop _) as [? [? ?]]. discriminate.
Qed.

Lemma GetOutput_exceptions_witness :
  fst (GetOutput_NAR (fun _ => @Raise pyval JSONDecodeError) (mkIO [] [] 0)) = Raise BrokenPipeError /\
  ((BrokenPipeError = BrokenPipeError /\ io_writable (mkIO [] [] 0) = 0%nat /\
    snd (GetOutput_NAR (fun _ => @Raise pyval JSONDecodeError) (mkIO [] [] 0)) = mkIO [] [] 0) \/
   exists lines flag st',
    GetRawOutput_NAR true (mkIO [] [] 0) = (Ok (lines, flag), st') /\
    snd (GetOutput_NAR (fun _ => @Raise pyval JSONDecodeError) (mkIO [] [] 0)) = st' /\
    ((exists l, In l lines /\ (fun _ => @Raise pyval JSONDecodeError) l = Raise BrokenPipeError /\ BrokenPipeError <> JSONDecodeError) \/
     ((BrokenPipeError = IndexError \/ BrokenPipeError = ValueError) /\
      exists l, In l lines /\ contains "desire=" l = true))).
Proof.
  assert (H : fst (GetOutput_NAR (fun _ => @Raise pyval JSONDecodeError) (mkIO [] [] 0)) = Raise BrokenPipeError) by reflexivity.
  split; [exact H|]. exact (GetOutput_exceptions (fun _ => @Raise pyval JSONDecodeError) (mkIO [] [] 0) BrokenPipeError H).
Defined.

(* ------------------------------------------------------------------ *)
(** ** Stopping the engine twice *)






(* ------------------------------------------------------------------ *)
(** ** Classifying one line of output *)





(** [desire_of] on a line with a ["desire="]: the first word after it,
    read as a float. *)
Lemma desire_of_tokens : forall s, contains "desire=" s = true ->
  desire_of s = match desire_tokens s with [] => Raise IndexError | tok :: _ => float_exc tok end.
Proof.
  intros s H. destruct (nth_exc_found _ _ H) as [b Hb].
  unfold desire_of, desire_tokens. rewrite Hb. cbn [exc_bind].
  unfold nth_exc in Hb. destruct (nth_error (py_split "desire=" s) 1) eqn:E; [|discriminate].
  injection Hb as ->. rewrite (nth_error_nth _ _ _ E).
  unfold nth_exc. destruct (split_ws b); reflexivity.
Qed.




(* ------------------------------------------------------------------ *)
(** ** The two stats parsers *)

(** C2 (corrected): the two stats parsers of the repository.  NAR_working
    ([NAR.stats], and [GetStats] of NAR_native_threaded) split a line at
    its first colon, key the trimmed left side as it is, and read the
    trimmed right side as an int, else a float, else a string.  NAR.py's
    [GetStats] turns the spaces of the key into underscores, reads only the
    text between the first and the second colon (["a: 1:2"] gives
    [{"a": 1.0}], where NAR_working gives [{"a": "1:2"}]), and keeps it only
    if it reads as a float (stored as a float), dropping the line otherwise.
    On the three sample lines this gives
    [{"currentTime": 42, "average priority": 0.57, "note": "something odd"}]
    and [{"currentTime": 42.0, "average_priority": 0.57}]. *)
Theorem stats_parsers_behaviour :
  (forall k v, contains ":" k = false -> startswith "//" (k ++ ":" ++ v) = false ->
     stats_working [k ++ ":" ++ v] = [(strip k, stats_value (strip v))]) /\
  (forall k v tail, contains ":" k = false -> contains ":" v = false ->
     (tail = "" \/ exists r, tail = ":" ++ r) ->
     startswith "//" (k ++ ":" ++ v ++ tail) = false ->
     GetStats_NAR [k ++ ":" ++ v ++ tail] =
       Ok (match py_float (strip v) with
           | Some f => [(replace_space (strip k), PFloat f)]
           | None => []
           end)) /\
  stats_working ["currentTime: 42"; "average priority: 0.57"; "note: something odd"]
    = [("currentTime", PInt 42); ("average priority", PFloat (FFinite false 57 (-2)));
       ("note", PStr "something odd")] /\
  GetStats_NAR ["currentTime: 42"; "average priority: 0.57"; "note: something odd"]
    = Ok [("currentTime", PFloat (FFinite false 42 0));
          ("average_priority", PFloat (FFinite false 57 (-2)))] /\
  GetStats_NAR ["a: 1:2"] = Ok [("a", PFloat (FFinite false 1 0))] /\
  stats_working ["a: 1:2"] = [("a", PStr "1:2")].
Proof.
  split; [|split; [|split; [|split; [|split]]]].
  - intros k v Hk Hs. unfold stats_working, stats_working_aux.
    rewrite (contains_colon_line k v Hk), Hs. cbn [andb negb].
    rewrite (py_split1_colon k v Hk). reflexivity.
  - intros k v tail Hk Hv Ht Hs. unfold GetStats_NAR, GetStats_NAR_aux.
    rewrite (contains_colon_line k (v ++ tail) Hk), Hs. cbn [andb negb].
    unfold stats_entry_NAR.
    destruct (split_fuel_colon_value k v tail Hk Hv Ht) as [tl ->].
    cbn [nth_exc nth_error exc_bind].
    unfold float_exc. destruct (py_float (strip v)); reflexivity.
  - reflexivity.
  - reflexivity.
  - vm_compute. reflexivity.
  - vm_compute. reflexivity.
Qed.

Lemma stats_parsers_behaviour_witness :
  (contains ":" "currentTime" = false /\ startswith "//" ("currentTime" ++ ":" ++ " 42") = false /\
   stats_working ["currentTime" ++ ":" ++ " 42"] = [(strip "currentTime", stats_value (strip " 42"))]) /\
  (contains ":" "a" = false /\ contains ":" " 1" = false /\
   startswith "//" ("a" ++ ":" ++ " 1" ++ ":2") = false /\
   GetStats_NAR ["a" ++ ":" ++ " 1" ++ ":2"] =
     Ok (match py_float (strip " 1") with
         | Some f => [(replace_space (strip "a"), PFloat f)]
         | None => []
         end)).
Proof.
  destruct stats_parsers_behaviour as [Hw [Hn _]].
  split.
  - split; [reflexivity|]. split; [reflexivity|]. apply Hw; reflexivity.
  - split; [reflexivity|]. split; [reflexivity|]. split; [reflexivity|].
    apply Hn; [reflexivity|reflexivity| |reflexivity]. right. exists "2". reflexivity.
Defined.

(* ------------------------------------------------------------------ *)
(** ** The operator of an execution line *)

Lemma startswith_app_split : forall p a b, startswith p (a ++ b) = true ->
  startswith p a = true \/ exists q, p = (a ++ q)%string /\ startswith q b = true.
Proof.
  intros p a. revert p. induction a as [|c a IH]; intros p b H.
  - right. exists p. split; [reflexivity|exact H].
  - destruct p as [|c' p]; [left; reflexivity|].
    cbn [append startswith] in H |- *. apply andb_prop in H as [H1 H2].
    rewrite H1. destruct (IH p b H2) as [H|(q & -> & Hq)]; [left; exact H|].
    right. exists q. apply Ascii.eqb_eq in H1 as ->. split; [reflexivity|exact Hq].
Qed.

Lemma startswith_refl : forall s, startswith s s = true.
Proof. intros s. pose proof (startswith_self_app s "") as H. rewrite append_empty_r in H. exact H. Qed.

Lemma no_space_cons : forall c s, no_space (String c s) = negb (is_space c) && no_space s.
Proof. reflexivity. Qed.

Lemma no_space_app_r : forall a b, no_space (a ++ b) = true -> no_space b = true.
Proof.
  induction a as [|c a IH]; intros b H; [exact H|].
  cbn [append] in H. rewrite no_space_cons in H. apply andb_prop in H as [_ H]. exact (IH b H).
Qed.

Lemma startswith_space_false : forall p s, no_space p = true -> p <> "" ->
  (exists x r, s = String x r /\ is_space x = true) -> startswith p s = false.
Proof.
  intros [|c p] s Hp Hne (x & r & -> & Hx); [contradiction|].
  rewrite no_space_cons in Hp. apply andb_prop in Hp as [Hc _].
  cbn [startswith]. destruct (Ascii.eqb_spec c x) as [->|]; [|reflexivity].
  rewrite Hx in Hc. discriminate.
Qed.

Lemma find_sub_spaces : forall p ws s, no_space p = true -> p <> "" -> lstrip ws = "" ->
  find_sub p (ws ++ s) = option_map (Nat.add (String.length ws)) (find_sub p s).
Proof.
  intros p ws s Hp Hne. induction ws as [|c ws IH]; intros Hw.
  - cbn [append String.length]. destruct (find_sub p s); reflexivity.
  - cbn [lstrip] in Hw. destruct (is_space c) eqn:Ec; [|discriminate].
    cbn [append find_sub].
    rewrite (startswith_space_false p _ Hp Hne (ex_intro _ c (ex_intro _ _ (conj eq_refl Ec)))).
    rewrite (IH Hw). destruct (find_sub p s); reflexivity.
Qed.

Lemma find_sub_token : forall p op rest, no_space p = true -> p <> "" ->
  contains p op = false -> space_or_end rest ->
  find_sub p (op ++ rest) = option_map (Nat.add (String.length op)) (find_sub p rest).
Proof.
  intros p op rest Hp Hne. induction op as [|c op IH]; intros Hop Hr.
  - cbn [append String.length]. destruct (find_sub p rest); reflexivity.
  - unfold contains in Hop. destruct (find_sub p (String c op)) eqn:Ef; [discriminate|].
    apply find_sub_none_cons in Ef as [Es Ef].
    cbn [append find_sub].
    replace (startswith p (String c (op ++ rest))) with false.
    2: { symmetry. destruct (startswith p (String c (op ++ rest))) eqn:E; [|reflexivity].
         change (String c (op ++ rest)) with (String c op ++ rest)%string in E.
         destruct (startswith_app_split _ _ _ E) as [E'|(q & -> & Hq)]; [congruence|].
         destruct Hr as [->|(x & r & -> & Hx)].
         - destruct q; [|discriminate]. rewrite append_empty_r, startswith_refl in Es.
           discriminate.
         - destruct q as [|y q].
           + rewrite append_empty_r, startswith_refl in Es. discriminate.
           + cbn [startswith] in Hq. apply andb_prop in Hq as [Hy _]. apply Ascii.eqb_eq in Hy as ->.
             apply no_space_app_r in Hp. rewrite no_space_cons, Hx in Hp. discriminate. }
    assert (Hop' : contains p op = false) by (unfold contains; rewrite Ef; reflexivity).
    rewrite (IH Hop' Hr). destruct (find_sub p rest); reflexivity.
Qed.

Lemma find_sub_cons : forall p c s,
  find_sub p (String c s) = if startswith p (String c s) then Some 0 else option_map S (find_sub p s).
Proof. reflexivity. Qed.

(** The first occurrence of [sep] in [a ++ sep ++ s] when [a] has none and
    [sep]'s first character does not occur again in it. *)
Lemma find_sub_first_occ : forall x p' a s,
  contains (String x "") p' = false -> find_sub (String x p') a = None ->
  find_sub (String x p') (a ++ String x p' ++ s) = Some (String.length a).
Proof.
  intros x p' a s Hx. induction a as [|c a IH]; intros Ha.
  - cbn [String.length]. apply prefix_find_sub. apply (startswith_self_app (String x p') s).
  - apply find_sub_none_cons in Ha as [Hs Ha].
    change ((String c a ++ String x p' ++ s)%string) with (String c (a ++ String x p' ++ s)).
    rewrite find_sub_cons.
    replace (startswith (String x p') (String c (a ++ String x p' ++ s))) with false.
    + rewrite (IH Ha). reflexivity.
    + symmetry. destruct (startswith (String x p') (String c (a ++ String x p' ++ s))) eqn:E;
        [|reflexivity].
      change (String c (a ++ String x p' ++ s)) with (String c a ++ String x p' ++ s)%string in E.
      destruct (startswith_app_split _ _ _ E) as [E'|(q & Hq & Hq')]; [congruence|].
      destruct q as [|y q].
      * rewrite append_empty_r in Hq. rewrite Hq, startswith_refl in Hs. discriminate.
      * cbn [startswith] in Hq'. apply andb_prop in Hq' as [Hy _]. apply Ascii.eqb_eq in Hy as ->.
        cbn [append] in Hq. injection Hq as -> Hp'.
        rewrite Hp', contains_char_app, contains_char_cons, Ascii.eqb_refl, orb_true_r in Hx.
        discriminate.
Qed.

Lemma split_ws_aux_app_token : forall d s cur, no_space d = true ->
  split_ws_aux (d ++ s) cur = split_ws_aux s (cur ++ d).
Proof.
  induction d as [|c d IH]; intros s cur H.
  - rewrite append_empty_r. reflexivity.
  - rewrite no_space_cons in H. apply andb_prop in H as [H1 H2]. apply negb_true_iff in H1.
    cbn [append split_ws_aux]. rewrite H1, (IH _ _ H2), append_assoc_str. reflexivity.
Qed.

(** The first word of [strip (ws ++ op ++ r)]. *)
Lemma first_word : forall ws op r, lstrip ws = "" -> no_space op = true -> op <> "" ->
  space_or_end r -> exists tl, split_ws (strip (ws ++ op ++ r)) = op :: tl.
Proof.
  intros ws op r Hw Hop Hne Hr. unfold strip.
  rewrite lstrip_app, Hw. cbn [String.eqb].
  assert (Hl : lstrip (op ++ r) = (op ++ r)%string).
  { destruct op as [|c op]; [contradiction|]. rewrite no_space_cons in Hop.
    apply andb_prop in Hop as [Hc _]. apply negb_true_iff in Hc.
    cbn [append lstrip]. rewrite Hc. reflexivity. }
  rewrite Hl, rstrip_app.
  destruct Hr as [->|(x & r' & -> & Hx)].
  - cbn [rstrip String.eqb]. rewrite (rstrip_token _ Hop). exists [].
    exact (split_ws_token _ Hop Hne).
  - cbn [rstrip]. rewrite Hx, andb_true_r.
    destruct (rstrip r' =? "").
    + cbn [String.eqb]. rewrite (rstrip_token _ Hop). exists [].
      exact (split_ws_token _ Hop Hne).
    + cbn [String.eqb]. unfold split_ws. rewrite (split_ws_aux_app_token _ _ _ Hop).
      cbn [append split_ws_aux]. rewrite Hx.
      apply String.eqb_neq in Hne. rewrite Hne. eexists. reflexivity.
Qed.

Lemma split_fuel_S : forall f sep s, split_fuel (S f) sep s =
  match find_sub sep s with
  | None => [s]
  | Some i => take i s :: split_fuel f sep (drop (i + String.length sep) s)
  end.
Proof. reflexivity. Qed.

Lemma split_fuel_head : forall f sep s, exists tl, split_fuel (S f) sep s =
  (match find_sub sep s with None => s | Some i => take i s end) :: tl.
Proof. intros f sep s. rewrite split_fuel_S. destruct (find_sub sep s); eexists; reflexivity. Qed.

(** The text [parseExecution] takes its operator from: the piece of the line
    between its first and its second "^executed:". *)
Lemma executed_segment : forall pre ws op rest,
  contains "^executed:" pre = false -> lstrip ws = "" -> no_space op = true -> op <> "" ->
  contains "^executed:" op = false -> space_or_end rest ->
  exists seg, nth_exc 1 (py_split "^executed:" (pre ++ "^executed:" ++ ws ++ op ++ rest)) = Ok seg /\
    exists tl, split_ws (strip seg) = op :: tl.
Proof.
  intros pre ws op rest Hpre Hw Hop Hne Hex Hr.
  assert (Hp : no_space "^executed:" = true) by reflexivity.
  assert (Hpn : "^executed:" <> "") by discriminate.
  unfold py_split. rewrite split_fuel_S.
  rewrite (find_sub_first_occ "^" "executed:" pre (ws ++ op ++ rest) eq_refl
             (find_none_of_contains _ _ Hpre)).
  replace (String.length pre + String.length "^executed:")%nat with (String.length pre + 10)%nat
    by reflexivity.
  rewrite drop_app_len.
  change (drop 10 ("^executed:" ++ ws ++ op ++ rest)) with (ws ++ op ++ rest)%string.
  destruct (String.length (pre ++ "^executed:" ++ ws ++ op ++ rest)) as [|f] eqn:El.
  { rewrite !length_append_str in El. cbn [String.length] in El. lia. }
  destruct (split_fuel_head f "^executed:" (ws ++ op ++ rest)) as [tl ->].
  eexists. split; [reflexivity|].
  rewrite (find_sub_spaces _ _ _ Hp Hpn Hw), (find_sub_token _ _ _ Hp Hpn Hex Hr).
  destruct (find_sub "^executed:" rest) as [j|] eqn:Ej; cbn [option_map].
  - rewrite take_app_len_add, take_app_len_add.
    destruct Hr as [->|(x & r & -> & Hx)]; [discriminate|].
    rewrite find_sub_cons, (startswith_space_false _ _ Hp Hpn (ex_intro _ x (ex_intro _ r (conj eq_refl Hx))))
      in Ej.
    destruct (find_sub "^executed:" r) as [j'|]; [|discriminate].
    injection Ej as <-. cbn [take].
    apply (first_word ws op (String x (take j' r)) Hw Hop Hne).
    right. exists x, (take j' r). split; [reflexivity|exact Hx].
  - exact (first_word ws op rest Hw Hop Hne Hr).
Qed.

Lemma parseExecution_str_operator : forall pre ws op rest,
  contains "^executed:" pre = false -> lstrip ws = "" -> no_space op = true -> op <> "" ->
  contains "^executed:" op = false -> space_or_end rest ->
  let line := (pre ++ "^executed:" ++ ws ++ op ++ rest)%string in
  (forall v, parseExecution_str line = Ok v ->
     exists de, v = PDict [("operator", PStr op); ("arguments", PList []); ("desire", PFloat de)]) /\
  (contains "desire=" line = false ->
     parseExecution_str line =
       Ok (PDict [("operator", PStr op); ("arguments", PList []); ("desire", PFloat float_zero)])).
Proof.
  intros pre ws op rest Hpre Hw Hop Hne Hex Hr line.
  destruct (executed_segment pre ws op rest Hpre Hw Hop Hne Hex Hr) as (seg & Hseg & tl & Hfw).
  assert (Hc : contains "^executed:" line = true).
  { unfold line. unfold contains.
    rewrite (find_sub_first_occ "^" "executed:" pre _ eq_refl (find_none_of_contains _ _ Hpre)).
    reflexivity. }
  unfold line in *. unfold parseExecution_str. rewrite Hc, Hseg. cbn [exc_bind]. rewrite Hfw.
  split.
  - destruct (contains "desire=" _); [|cbn [exc_bind]; intros v H; injection H as <-; eauto].
    destruct (desire_of _); cbn [exc_bind]; intros v H; [injection H as <-; eauto|discriminate H].
  - intros ->. reflexivity.
Qed.

(** C7 (corrected).  From a JSON record, [parseExecution] takes the
    operator from "operation" and passes the engine's "arguments" value
    through unchanged (so in its order), or [] when the record has none.
    From a text line it always gives [], whatever arguments the line names,
    and takes as operator the first word after the first "^executed:": for
    a line [pre ++ "^executed:" ++ ws ++ op ++ rest] with no "^executed:" in [pre],
    only whitespace in [ws], a word [op] with no "^executed:" in it and
    [rest] empty or starting with whitespace, the operator is [op], and the
    desire is 0.0 when the line has no "desire=".  NAR_working's
    [add_input] keeps the raw lines starting with '^' as its executions,
    arguments included.  A [^left] execution with no arguments gives
    operator "^left" and arguments [] on both paths of NAR.py. *)
Theorem execution_arguments :
  (forall d op args,
     dict_get "operation" d = Some op -> dict_get "arguments" d = Some args ->
     exists r, parseExecution_dict d = PDict r /\
       dict_get "operator" r = Some op /\ dict_get "arguments" r = Some args) /\
  (forall d, dict_get "arguments" d = None ->
     exists r, parseExecution_dict d = PDict r /\ dict_get "arguments" r = Some (PList [])) /\
  (forall line v, parseExecution_str line = Ok v ->
     exists r, v = PDict r /\ dict_get "arguments" r = Some (PList [])) /\
  (forall pre ws op rest,
     contains "^executed:" pre = false -> lstrip ws = "" -> no_space op = true -> op <> "" ->
     contains "^executed:" op = false -> space_or_end rest ->
     (forall v, parseExecution_str (pre ++ "^executed:" ++ ws ++ op ++ rest) = Ok v ->
        exists de, v = PDict [("operator", PStr op); ("arguments", PList []);
                              ("desire", PFloat de)]) /\
     (contains "desire=" (pre ++ "^executed:" ++ ws ++ op ++ rest) = false ->
        parseExecution_str (pre ++ "^executed:" ++ ws ++ op ++ rest) =
          Ok (PDict [("operator", PStr op); ("arguments", PList []);
                     ("desire", PFloat float_zero)]))) /\
  (forall output, ar_executions (add_input_result_working output) =
                  filter (startswith "^") output) /\
  parseExecution_str "^executed: ^left desire=0.70" =
    Ok (PDict [("operator", PStr "^left"); ("arguments", PList []);
               ("desire", PFloat (FFinite false 7 (-1)))]) /\
  parseExecution_dict [("operation", PStr "^left"); ("desire", PFloat (FFinite false 7 (-1)))] =
    PDict [("operator", PStr "^left"); ("arguments", PList []);
           ("desire", PFloat (FFinite false 7 (-1)))] /\
  ar_executions (add_input_result_working ["^pick executed with args ({SELF} * ball)"; "Derived: a."]) =
    ["^pick executed with args ({SELF} * ball)"].
Proof.
  split; [|split; [|split; [|split; [|split; [|split; [|split]]]]]].
  - intros d op args Ho Ha. eexists. split; [reflexivity|].
    unfold get_or. rewrite Ho, Ha. split; reflexivity.
  - intros d Ha. eexists. split; [reflexivity|]. unfold get_or. rewrite Ha. reflexivity.
  - intros line v H. destruct (parseExecution_str_no_args line v H) as (op & de & ->).
    eexists. split; reflexivity.
  - intros pre ws op rest Hpre Hw Hop Hne Hex Hr.
    exact (parseExecution_str_operator pre ws op rest Hpre Hw Hop Hne Hex Hr).
  - intros output. reflexivity.
  - vm_compute. reflexivity.
  - reflexivity.
  - reflexivity.
Qed.

Lemma execution_arguments_witness :
  (exists r, parseExecution_dict [("operation", PStr "^pick");
                                  ("arguments", PList [PStr "{SELF}"; PStr "ball"])] = PDict r /\
     dict_get "operator" r = Some (PStr "^pick") /\
     dict_get "arguments" r = Some (PList [PStr "{SELF}"; PStr "ball"])) /\
  (exists de, parseExecution_str ("" ++ "^executed:" ++ " " ++ "^left" ++ " desire=0.70") =
     Ok (PDict [("operator", PStr "^left"); ("arguments", PList []); ("desire", PFloat de)])).
Proof.
  destruct execution_arguments as (H & _ & _ & Hop & _).
  split; [apply H; reflexivity|].
  assert (Hr : space_or_end " desire=0.70") by (right; exists " "%char, "desire=0.70"; split; reflexivity).
  destruct (Hop "" " " "^left" " desire=0.70" eq_refl eq_refl eq_refl ltac:(discriminate) eq_refl Hr)
    as [Hv _].
  destruct (parseExecution_str ("" ++ "^executed:" ++ " " ++ "^left" ++ " desire=0.70")) as [v|e] eqn:E.
  - destruct (Hv v eq_refl) as [de ->]. exists de. reflexivity.
  - exfalso. vm_compute in E. discriminate E.
Defined.

(* ------------------------------------------------------------------ *)
(** ** Which stats line a key comes from *)








(* ------------------------------------------------------------------ *)
(** ** The decision [parseReason] reads *)

Lemma drop_app_exact : forall k r, drop (String.length k) (k ++ r) = r.
Proof. intros k r. rewrite <- (Nat.add_0_r (String.length k)), drop_app_len. reflexivity. Qed.

(** [s.split(sep)] on [a ++ sep ++ body ++ tail]: the pieces before and
    after the first [sep], when [sep]'s first character does not occur again
    in it. *)
Lemma sep_segment : forall x p' a body tail,
  contains (String x "") p' = false ->
  contains (String x p') a = false -> contains (String x p') body = false ->
  (tail = "" \/ exists r, tail = (String x p' ++ r)%string) ->
  nth_exc 0 (py_split (String x p') (a ++ String x p' ++ body ++ tail)) = Ok a /\
  nth_exc 1 (py_split (String x p') (a ++ String x p' ++ body ++ tail)) = Ok body.
Proof.
  intros x p' a body tail Hx Ha Hb Ht.
  unfold py_split. rewrite split_fuel_S.
  rewrite (find_sub_first_occ x p' a _ Hx (find_none_of_contains _ _ Ha)).
  rewrite take_app_len, drop_app_len, drop_app_exact.
  destruct (String.length (a ++ String x p' ++ body ++ tail)) as [|f] eqn:El.
  { rewrite !length_append_str in El. cbn [String.length] in El. lia. }
  destruct (split_fuel_head f (String x p') (body ++ tail)) as [tl ->].
  split; [reflexivity|]. cbn [nth_exc nth_error]. f_equal.
  destruct Ht as [->|(r & ->)].
  - rewrite append_empty_r, (find_none_of_contains _ _ Hb). reflexivity.
  - rewrite (find_sub_first_occ x p' body r Hx (find_none_of_contains _ _ Hb)). apply take_app_len.
Qed.

(** The words of a piece that starts with the word [d]. *)
Lemma split_ws_word : forall d R, no_space d = true -> d <> "" -> space_or_end R ->
  exists tl, split_ws (d ++ R) = d :: tl.
Proof.
  intros d R Hd Hne [->|(x & r & -> & Hx)].
  - rewrite append_empty_r. exists []. exact (split_ws_token d Hd Hne).
  - unfold split_ws. rewrite (split_ws_aux_app_token _ _ _ Hd). cbn [append split_ws_aux].
    rewrite Hx. apply String.eqb_neq in Hne. rewrite Hne. eexists. reflexivity.
Qed.

(** The piece after [sep] that starts with the word [d]. *)
Lemma head_after_word : forall f p d R, no_space p = true -> p <> "" ->
  contains p d = false -> space_or_end R ->
  exists R' tl, space_or_end R' /\ split_fuel (S f) p (d ++ R) = (d ++ R')%string :: tl.
Proof.
  intros f p d R Hp Hpn Hd HR.
  destruct (split_fuel_head f p (d ++ R)) as [tl ->].
  rewrite (find_sub_token _ _ _ Hp Hpn Hd HR).
  destruct (find_sub p R) as [j|] eqn:Ej; cbn [option_map].
  - rewrite take_app_len_add.
    destruct HR as [->|(x & r & -> & Hx)]; [destruct p; [contradiction|discriminate]|].
    rewrite find_sub_cons, (startswith_space_false _ _ Hp Hpn (ex_intro _ x (ex_intro _ r (conj eq_refl Hx))))
      in Ej.
    destruct (find_sub p r) as [j'|]; [|discriminate].
    injection Ej as <-. cbn [take].
    exists (String x (take j' r)), tl. split; [right; exists x, (take j' r); split; [reflexivity|exact Hx]|].
    reflexivity.
  - exists R, tl. split; [exact HR|reflexivity].
Qed.

(** A text with a first "desire=" followed by the word [d]: what [parseExecution]
    and [parseReason] read from it. *)
Lemma desire_split : forall A d R,
  contains "desire=" A = false -> contains "desire=" d = false ->
  no_space d = true -> d <> "" -> space_or_end R ->
  contains "desire=" (A ++ "desire=" ++ d ++ R) = true /\
  nth_exc 0 (py_split "desire=" (A ++ "desire=" ++ d ++ R)) = Ok A /\
  exists tl, desire_tokens (A ++ "desire=" ++ d ++ R) = d :: tl.
Proof.
  intros A d R HA Hd Hns Hne HR.
  assert (Hf : find_sub "desire=" (A ++ "desire=" ++ d ++ R) = Some (String.length A))
    by exact (find_sub_first_occ "d" "esire=" A (d ++ R) eq_refl (find_none_of_contains _ _ HA)).
  split; [unfold contains; rewrite Hf; reflexivity|].
  unfold desire_tokens, py_split. rewrite split_fuel_S, Hf, take_app_len.
  split; [reflexivity|].
  rewrite drop_app_len, drop_app_exact.
  destruct (String.length (A ++ "desire=" ++ d ++ R)) as [|f] eqn:El.
  { rewrite !length_append_str in El. cbn [String.length] in El. lia. }
  destruct (head_after_word f "desire=" d R eq_refl ltac:(discriminate) Hd HR) as (R' & tl & HR' & ->).
  cbn [nth]. exact (split_ws_word d R' Hns Hne HR').
Qed.

(** [rstrip] keeps a word and the whitespace-led rest after it in shape. *)
Lemma rstrip_word : forall d R, no_space d = true -> d <> "" -> space_or_end R ->
  exists R', rstrip (d ++ R) = (d ++ R')%string /\ space_or_end R'.
Proof.
  intros d R Hd Hne HR. rewrite rstrip_app, (rstrip_token d Hd).
  destruct HR as [->|(x & r & -> & Hx)].
  - exists "". cbn [rstrip String.eqb]. rewrite append_empty_r. split; [reflexivity|left; reflexivity].
  - cbn [rstrip]. rewrite Hx, andb_true_r.
    destruct (rstrip r =? "").
    + exists "". rewrite append_empty_r. split; [reflexivity|left; reflexivity].
    + cbn [String.eqb]. exists (String x (rstrip r)). split; [reflexivity|].
      right. exists x, (rstrip r). split; [reflexivity|exact Hx].
Qed.

(** [parts] of [parseReason] for a segment [imp ++ " desire=" ++ d ++ rest]. *)
Lemma decide_parts : forall imp d rest,
  contains "desire=" imp = false -> no_space d = true -> d <> "" -> space_or_end rest ->
  exists A R, strip (imp ++ " desire=" ++ d ++ rest) = (A ++ "desire=" ++ d ++ R)%string /\
    space_or_end R /\ contains "desire=" A = false /\ strip A = strip imp.
Proof.
  intros imp d rest Himp Hd Hne Hr.
  destruct (rstrip_word d rest Hd Hne Hr) as (R & HR & HRs).
  unfold strip. rewrite lstrip_app.
  destruct (String.eqb_spec (lstrip imp) "") as [HL|HL].
  - exists "", R. change (lstrip (" desire=" ++ d ++ rest))
      with ("desire=" ++ d ++ rest)%string.
    rewrite rstrip_app, HR.
    replace ((d ++ R) =? "")%string with false
      by (symmetry; apply String.eqb_neq; intros H; destruct d; [contradiction|discriminate]).
    split; [reflexivity|]. split; [exact HRs|]. split; [reflexivity|]. rewrite HL. reflexivity.
  - exists (lstrip imp ++ " ")%string, R.
    replace ((lstrip imp ++ " desire=" ++ d ++ rest))%string
      with (((lstrip imp ++ " desire=") ++ d ++ rest))%string by apply append_assoc_str.
    rewrite rstrip_app, HR.
    replace ((d ++ R) =? "")%string with false
      by (symmetry; apply String.eqb_neq; intros H; destruct d; [contradiction|discriminate]).
    split; [rewrite !append_assoc_str; reflexivity|]. split; [exact HRs|]. split.
    + unfold contains. change " " with (String " " "").
      rewrite (find_sub_skip "desire=" " " _ "" eq_refl (find_sub_lstrip _ _ (find_none_of_contains _ _ Himp))).
      reflexivity.
    + rewrite lstrip_app, lstrip_idem. apply String.eqb_neq in HL. rewrite HL, rstrip_app. reflexivity.
Qed.

(** X8.  NAR.py's [parseReason] returns [None] when no line contains
    "^decide:"; otherwise the first line containing it decides the result
    alone, whatever the lines before and after it.  On such a line
    [a ++ "^decide:" ++ seg ++ tail], with no "^decide:" in [a] or [seg] and
    [tail] empty or starting with a second "^decide:", [seg] is read: when
    [seg] is an implication [imp] with no "desire=" the desire is 0.0; when
    [seg] is [imp ++ " desire=" ++ d ++ rest] with a word [d] that reads
    as a float and a [rest] that is empty or starts with whitespace, the
    desire is [float(d)]; in both the hypothesis term is [imp] trimmed. *)
Theorem parseReason_first_decision :
  (forall lines, Forall (fun l => contains "^decide:" l = false) lines ->
     parseReason lines = Ok PNone) /\
  (forall pre l post, Forall (fun l => contains "^decide:" l = false) pre ->
     contains "^decide:" l = true -> parseReason (pre ++ l :: post) = parseReason [l]) /\
  (forall pre a imp tail post, Forall (fun l => contains "^decide:" l = false) pre ->
     contains "^decide:" a = false ->
     contains "^decide:" imp = false -> contains "desire=" imp = false ->
     (tail = "" \/ exists r, tail = ("^decide:" ++ r)%string) ->
     parseReason (pre ++ (a ++ "^decide:" ++ imp ++ tail) :: post) =
       Ok (PDict [("desire", PFloat float_zero);
                  ("hypothesis", PDict [("term", PStr (strip imp)); ("punctuation", PStr ".")]);
                  ("precondition", PNone)])) /\
  (forall pre a imp d rest tail f post, Forall (fun l => contains "^decide:" l = false) pre ->
     contains "^decide:" a = false ->
     contains "^decide:" (imp ++ " desire=" ++ d ++ rest) = false ->
     contains "desire=" imp = false -> contains "desire=" d = false ->
     no_space d = true -> py_float d = Some f -> space_or_end rest ->
     (tail = "" \/ exists r, tail = ("^decide:" ++ r)%string) ->
     parseReason (pre ++ (a ++ "^decide:" ++ (imp ++ " desire=" ++ d ++ rest) ++ tail) :: post) =
       Ok (PDict [("desire", PFloat f);
                  ("hypothesis", PDict [("term", PStr (strip imp)); ("punctuation", PStr ".")]);
                  ("precondition", PNone)])).
Proof.
  split; [|split; [|split]].
  - intros lines H. rewrite <- (app_nil_r lines), (parseReason_skip _ _ H). reflexivity.
  - intros pre l post Hpre Hl. rewrite (parseReason_skip _ _ Hpre).
    cbn [parseReason]. rewrite Hl. reflexivity.
  - intros pre a imp tail post Hpre Ha Hi He Ht.
    rewrite (parseReason_skip _ _ Hpre).
    destruct (sep_segment "^" "decide:" a imp tail eq_refl Ha Hi Ht) as [H0 H1].
    assert (Hc : contains "^decide:" (a ++ "^decide:" ++ imp ++ tail) = true).
    { unfold contains.
      rewrite (find_sub_first_occ "^" "decide:" a _ eq_refl (find_none_of_contains _ _ Ha)).
      reflexivity. }
    cbn [parseReason]. rewrite Hc, H1. cbn [exc_bind].
    rewrite (contains_strip _ _ He). cbn [exc_bind]. unfold py_split.
    rewrite (split_fuel_none _ _ _ (find_sub_strip _ _ (find_none_of_contains _ _ He))).
    cbn [nth_exc nth_error exc_bind]. rewrite strip_idem. reflexivity.
  - intros pre a imp d rest tail f post Hpre Ha Hs Hi Hd Hns Hf Hr Ht.
    assert (Hne : d <> "") by (intros ->; discriminate Hf).
    rewrite (parseReason_skip _ _ Hpre).
    destruct (sep_segment "^" "decide:" a (imp ++ " desire=" ++ d ++ rest) tail eq_refl Ha Hs Ht)
      as [H0 H1].
    assert (Hc : contains "^decide:" (a ++ "^decide:" ++ (imp ++ " desire=" ++ d ++ rest) ++ tail) = true).
    { unfold contains.
      rewrite (find_sub_first_occ "^" "decide:" a _ eq_refl (find_none_of_contains _ _ Ha)).
      reflexivity. }
    cbn [parseReason]. rewrite Hc, H1. cbn [exc_bind].
    destruct (decide_parts imp d rest Hi Hns Hne Hr) as (A & R & Hp & HR & HA & HsA).
    rewrite Hp.
    destruct (desire_split A d R HA Hd Hns Hne HR) as (Hcd & Hn0 & tl & Htok).
    rewrite Hcd, (desire_of_tokens _ Hcd), Htok. unfold float_exc. rewrite Hf. cbn [exc_bind].
    rewrite Hn0. cbn [exc_bind]. rewrite HsA. reflexivity.
Qed.

Lemma parseReason_first_decision_witness :
  parseReason ["Derived: <a --> b>."; "done"] = Ok PNone /\
  parseReason (["Input: <a --> b>."] ++ "x ^decide: <c =/> d>" :: ["^decide: <e =/> f> desire=0.9"]) =
    parseReason ["x ^decide: <c =/> d>"] /\
  parseReason (["Input: <a --> b>."] ++ ("" ++ "^decide:" ++ " <a =/> b> " ++ "") :: []) =
    Ok (PDict [("desire", PFloat float_zero);
               ("hypothesis", PDict [("term", PStr (strip " <a =/> b> ")); ("punctuation", PStr ".")]);
               ("precondition", PNone)]) /\
  parseReason (["Input: <a --> b>."] ++
               ("note " ++ "^decide:" ++ (" <a =/> b>" ++ " desire=" ++ "0.5" ++ " extra") ++ "")
               :: ["^decide: <c =/> d> desire=0.9"]) =
    Ok (PDict [("desire", PFloat (FFinite false 5 (-1)));
               ("hypothesis", PDict [("term", PStr (strip " <a =/> b>"));
                                     ("punctuation", PStr ".")]);
               ("precondition", PNone)]).
Proof.
  destruct parseReason_first_decision as (H1 & H2 & H3 & H4).
  split; [|split; [|split]].
  - apply H1. repeat constructor.
  - apply H2; [repeat constructor|reflexivity].
  - apply H3; [repeat constructor|reflexivity|reflexivity|reflexivity|left; reflexivity].
  - apply H4; [repeat constructor|reflexivity..| |left; reflexivity].
    right. exists " "%char, "extra". split; reflexivity.
Defined.

(* ------------------------------------------------------------------ *)
(** ** How [PrintedTask] renders the occurrence time *)

Lemma PrintedTask_parseTask_parts : forall d t,
  dict_get "term" d = Some (PStr t) ->
  (forall tr, dict_get "truth" d = Some tr -> exists td, tr = PDict td) ->
  exists p rest, (p = "." \/ p = "!" \/ p = "?") /\
    forall d', (forall k, k <> "occurrence-time" -> dict_get k d' = dict_get k d) ->
    PrintedTask (parseTask (PDict d')) =
      Ok (t ++ p ++ occurrence_suffix (get_or "occurrence-time" d' (PStr "eternal")) ++ rest).
Proof.
  intros d t Ht Htr.
  destruct (dict_get "truth" d) as [tr|] eqn:Etr;
    [destruct (Htr tr eq_refl) as [td ->]|];
  destruct (dict_get "priority" d) as [pr|] eqn:Epr;
  destruct (py_eq_str (get_or "type" d (PStr "belief")) "goal") eqn:Eg;
  destruct (py_eq_str (get_or "type" d (PStr "belief")) "question") eqn:Eq;
  match goal with
  | _ : py_eq_str _ "goal" = true |- _ => exists "!"
  | _ : py_eq_str _ "question" = true |- _ => exists "?"
  | _ => exists "."
  end;
  eexists; (split; [tauto|]); intros d' Hd';
  set (ov := get_or "occurrence-time" d' (PStr "eternal"));
  assert (Eov : get_or "occurrence-time" d' (PStr "eternal") = ov) by reflexivity;
  clearbody ov;
  unfold parseTask;
  rewrite Eov;
  assert (Ety : get_or "type" d' (PStr "belief") = get_or "type" d (PStr "belief"))
    by (unfold get_or; rewrite (Hd' "type") by discriminate; reflexivity);
  rewrite Ety, Eg, ?Eq;
  assert (Etm : get_or "term" d' (PStr "") = PStr t)
    by (unfold get_or; rewrite (Hd' "term") by discriminate; rewrite Ht; reflexivity);
  rewrite Etm;
  rewrite (Hd' "truth") by discriminate; rewrite Etr;
  rewrite (Hd' "priority") by discriminate; rewrite Epr;
  unfold occurrence_suffix;
  cbn -[append isdigit];
  (destruct (py_str ov =? "eternal");
   [|destruct (py_str ov =? "now"); [|destruct (isdigit (py_str ov))]]);
  cbn -[append isdigit];
  rewrite ?append_assoc_str; first [reflexivity | rewrite append_empty_r; reflexivity].
Qed.

(** X11. How NAR.py's [PrintedTask] renders the occurrence time of a task
    [parseTask] built from a JSON record with a string term and a truth, if
    any, that is an object (any type and priority): the text is the term, the
    punctuation ("." , "!" or "?"), then the occurrence part, then the rest
    (priority and truth), and the occurrence part is all that an
    "occurrence-time" field changes. Without it the task is eternal and has no
    occurrence part; a non-negative integer [n] gives " :|: occurrenceTime=n";
    a negative integer gives nothing, since "-3".isdigit() is false; "now"
    gives " :|:"; "eternal" gives nothing. *)
Theorem printed_task_occurrence_time : forall d t,
  dict_get "term" d = Some (PStr t) ->
  dict_get "occurrence-time" d = None ->
  (forall tr, dict_get "truth" d = Some tr -> exists td, tr = PDict td) ->
  (exists p rest, (p = "." \/ p = "!" \/ p = "?") /\
     PrintedTask (parseTask (PDict d)) = Ok (t ++ p ++ rest) /\
     forall v, PrintedTask (parseTask (PDict (("occurrence-time", v) :: d)))
                 = Ok (t ++ p ++ occurrence_suffix v ++ rest)) /\
  (forall n, (0 <= n)%Z -> occurrence_suffix (PInt n) = " :|: occurrenceTime=" ++ Z_str n) /\
  (forall n, (n < 0)%Z -> occurrence_suffix (PInt n) = "") /\
  occurrence_suffix (PStr "now") = " :|:" /\
  occurrence_suffix (PStr "eternal") = "".
Proof.
  intros d t Ht Ho Htr.
  split; [|split; [|split; [|split]]].
  - destruct (PrintedTask_parseTask_parts d t Ht Htr) as (p & rest & Hp & H).
    exists p, rest. split; [exact Hp|]. split.
    + rewrite (H d (fun _ _ => eq_refl)). unfold get_or. rewrite Ho. reflexivity.
    + intros v. rewrite H.
      * reflexivity.
      * intros k Hk. cbn [dict_get]. destruct (String.eqb_spec "occurrence-time" k);
          [congruence|reflexivity].
  - intros n Hn. unfold occurrence_suffix. cbn [py_str py_repr].
    rewrite (Z_str_nonneg n Hn).
    rewrite (isdigit_neq _ "eternal" (isdigit_N_digits _) eq_refl),
            (isdigit_neq _ "now" (isdigit_N_digits _) eq_refl), isdigit_N_digits.
    reflexivity.
  - intros n Hn. unfold occurrence_suffix. cbn [py_str py_repr]. unfold Z_str.
    destruct (Z.ltb_spec n 0); [|lia]. reflexivity.
  - reflexivity.
  - reflexivity.
Qed.

Lemma printed_task_occurrence_time_witness :
  (exists p rest, (p = "." \/ p = "!" \/ p = "?") /\
     PrintedTask (parseTask (PDict [("term", PStr "<a --> b>"); ("type", PStr "goal");
                                    ("priority", PStr "0.5");
                                    ("truth", PDict [("frequency", PStr "1.0");
                                                     ("confidence", PStr "0.9")])]))
       = Ok ("<a --> b>" ++ p ++ rest) /\
     forall v, PrintedTask (parseTask (PDict (("occurrence-time", v) ::
                 [("term", PStr "<a --> b>"); ("type", PStr "goal");
                  ("priority", PStr "0.5");
                  ("truth", PDict [("frequency", PStr "1.0"); ("confidence", PStr "0.9")])])))
       = Ok ("<a --> b>" ++ p ++ occurrence_suffix v ++ rest)) /\
  PrintedTask (parseTask (PDict [("occurrence-time", PStr "now"); ("term", PStr "<a --> b>");
                                 ("type", PStr "goal"); ("priority", PStr "0.5");
                                 ("truth", PDict [("frequency", PStr "1.0");
                                                  ("confidence", PStr "0.9")])]))
    = Ok "<a --> b>! :|: Priority=0.5 Truth: frequency=1.0 confidence=0.9".
Proof.
  split.
  - destruct (printed_task_occurrence_time
                [("term", PStr "<a --> b>"); ("type", PStr "goal"); ("priority", PStr "0.5");
                 ("truth", PDict [("frequency", PStr "1.0"); ("confidence", PStr "0.9")])]
                "<a --> b>" eq_refl eq_refl) as [H _].
    + intros tr Htr. cbn in Htr. injection Htr as <-. eexists. reflexivity.
    + exact H.
  - vm_compute. reflexivity.
Defined.
